(** * LocalAIHub: the request orchestrator of [api.py]

    A shallow embedding of [LocalAIHub] (the class of [api.py]) and of the
    [/generate] route, followed by the properties of the specification.

    Conventions of the embedding.
    - A Python [str] is a [string], one [ascii] per code point, read as
      Latin-1: the model covers the texts whose code points are below 256.
    - A Python value that went through JSON (the request body, the backend's
      reply, [None]) is a [json]; [None] is [JNull].
    - A Python [float] holding a number of seconds is a rational [Q].
    - What the environment decides during one call (the clock, the backend,
      the file system) is given to the call as an [Env]. *)

From Stdlib Require Import ZArith QArith Qround List String Ascii Bool Lia.
From Stdlib Require Import DecimalString.
Import ListNotations.

Open Scope string_scope.

(** ** Python strings *)

Module PyStr.

(** [chr(c).lower()] for a code point below 256: A-Z and the Latin-1
    capitals (U+00C0..U+00DE except U+00D7) move up by 32. *)
Definition lower_char (c : ascii) : ascii :=
  let n := N_of_ascii c in
  if ((65 <=? n) && (n <=? 90) || (192 <=? n) && (n <=? 214)
      || (216 <=? n) && (n <=? 222))%N
  then ascii_of_N (n + 32) else c.

(** [s.lower()] *)
Fixpoint lower (s : string) : string :=
  match s with
  | EmptyString => EmptyString
  | String c r => String (lower_char c) (lower r)
  end.

(** [chr(c).isspace()] for a code point below 256. *)
Definition isspace (c : ascii) : bool :=
  let n := N_of_ascii c in
  ((9 <=? n) && (n <=? 13) || (28 <=? n) && (n <=? 32)
   || (n =? 133) || (n =? 160))%N.

Fixpoint lstrip (s : string) : string :=
  match s with
  | EmptyString => EmptyString
  | String c r => if isspace c then lstrip r else s
  end.

Fixpoint rstrip (s : string) : string :=
  match s with
  | EmptyString => EmptyString
  | String c r =>
      match rstrip r with
      | EmptyString => if isspace c then EmptyString else String c EmptyString
      | r' => String c r'
      end
  end.

(** [s.strip()] *)
Definition strip (s : string) : string := rstrip (lstrip s).

(** [needle in hay] on two strings: [needle] starts at some position of
    [hay]. *)
Fixpoint contains (needle hay : string) : bool :=
  String.prefix needle hay
  || match hay with
     | EmptyString => false
     | String _ r => contains needle r
     end.

(** [s[:n]] *)
Fixpoint take (n : nat) (s : string) : string :=
  match n, s with
  | S k, String c r => String c (take k r)
  | _, _ => EmptyString
  end.

(** [any(word in s for word in words)] *)
Definition any_in (words : list string) (s : string) : bool :=
  existsb (fun word => contains word s) words.

(** [str(n)] for an [int] *)
Definition str_of_int (n : Z) : string := NilZero.string_of_int (Z.to_int n).

(** Every character of [s] is white space. *)
Fixpoint all_space (s : string) : bool :=
  match s with
  | EmptyString => true
  | String c r => isspace c && all_space r
  end.

End PyStr.

(** ** JSON values and the Python values they load to *)

#[warnings="-register-all"]
Inductive json : Type :=
| JNull
| JBool (b : bool)
| JNum (q : Q)
| JStr (s : string)
| JArr (l : list json)
| JObj (items : list (string * json)).

Module PyVal.

(** [d.get(key)] on the items of a [dict]. *)
Fixpoint lookup (key : string) (items : list (string * json)) : option json :=
  match items with
  | [] => None
  | (k, v) :: rest => if String.eqb k key then Some v else lookup key rest
  end.

Definition is_None (v : json) : bool :=
  match v with JNull => true | _ => false end.

(** Truth value of a loaded JSON value ([not data] is its negation). *)
Definition truthy (v : json) : bool :=
  match v with
  | JNull => false
  | JBool b => b
  | JNum q => negb (Qeq_bool q 0)
  | JStr s => negb (String.eqb s EmptyString)
  | JArr l => match l with [] => false | _ => true end
  | JObj items => match items with [] => false | _ => true end
  end.

Definition is_str (s : string) (v : json) : bool :=
  match v with JStr t => String.eqb s t | _ => false end.

End PyVal.

(** ** [datetime] values and their two renderings *)

Record datetime : Type := {
  year : Z; month : Z; day : Z;
  hour : Z; minute : Z; second : Z;
  microsecond : Z
}.

Module DateTime.

(** The ranges a [datetime] object keeps its fields in. *)
Definition valid (d : datetime) : Prop :=
  (1 <= year d <= 9999 /\ 1 <= month d <= 12 /\ 1 <= day d <= 31 /\
   0 <= hour d <= 23 /\ 0 <= minute d <= 59 /\ 0 <= second d <= 59 /\
   0 <= microsecond d <= 999999)%Z.

Definition digit (d : Z) : ascii := ascii_of_N (48 + Z.to_N d).

Definition is_digit (c : ascii) : bool :=
  let n := N_of_ascii c in ((48 <=? n) && (n <=? 57))%N.

(** Zero-padded decimal fields, least significant digit last. *)
Fixpoint pad (width : nat) (n : Z) (acc : string) : string :=
  match width with
  | O => acc
  | S w => pad w (n / 10) (String (digit (n mod 10)) acc)
  end.

(** [%Y] as the C library under CPython writes it: the year without
    padding, which has four digits from the year 1000 on. *)
Definition year_text (y : Z) : string :=
  if (1000 <=? y)%Z then pad 4 y EmptyString
  else if (100 <=? y)%Z then pad 3 y EmptyString
  else if (10 <=? y)%Z then pad 2 y EmptyString
  else pad 1 y EmptyString.

(** [d.strftime('%Y-%m-%d %H:%M:%S')] *)
Definition strftime (d : datetime) : string :=
  year_text (year d) ++ "-" ++ pad 2 (month d) EmptyString ++ "-"
  ++ pad 2 (day d) EmptyString ++ " " ++ pad 2 (hour d) EmptyString ++ ":"
  ++ pad 2 (minute d) EmptyString ++ ":" ++ pad 2 (second d) EmptyString.

(** [d.isoformat()]: the fraction is printed only when it is not zero. *)
Definition isoformat (d : datetime) : string :=
  pad 4 (year d) EmptyString ++ "-" ++ pad 2 (month d) EmptyString ++ "-"
  ++ pad 2 (day d) EmptyString ++ "T" ++ pad 2 (hour d) EmptyString ++ ":"
  ++ pad 2 (minute d) EmptyString ++ ":" ++ pad 2 (second d) EmptyString
  ++ (if (microsecond d =? 0)%Z then EmptyString
      else "." ++ pad 6 (microsecond d) EmptyString).

(** The shape [YYYY-MM-DD HH:MM:SS]: nineteen characters, digits
    everywhere but at the five separators. *)
Definition shape : list (ascii -> bool) :=
  let d := is_digit in
  let sep (a : ascii) := fun c => Ascii.eqb c a in
  [d; d; d; d; sep "-"%char; d; d; sep "-"%char; d; d; sep " "%char;
   d; d; sep ":"%char; d; d; sep ":"%char; d; d].

Fixpoint matches (sh : list (ascii -> bool)) (s : string) : bool :=
  match sh, s with
  | [], EmptyString => true
  | p :: sh', String c r => p c && matches sh' r
  | _, _ => false
  end.

Definition is_timestamp (s : string) : bool := matches shape s.

(** The number a text of digits writes. *)
Definition digit_value (c : ascii) : Z := (Z.of_N (N_of_ascii c) - 48)%Z.

Fixpoint number_from (acc : Z) (s : string) : Z :=
  match s with
  | EmptyString => acc
  | String c r => number_from (10 * acc + digit_value c) r
  end.

(** The six numbers of a text of that shape, from the year to the second. *)
Definition fields (s : string) : list Z :=
  map (fun '(start, len) => number_from 0 (substring start len s))
      [(0, 4); (5, 2); (8, 2); (11, 2); (14, 2); (17, 2)]%nat.

End DateTime.

(** ** Rounding of durations *)

(** [round(x)] to the nearest integer, ties to the even one. *)
Definition round_half_even (x : Q) : Z :=
  let f := Qfloor x in
  match ((x - inject_Z f) ?= (1 # 2))%Q with
  | Lt => f
  | Gt => (f + 1)%Z
  | Eq => if Z.even f then f else (f + 1)%Z
  end.

(** [round(x, 3)] *)
Definition round3 (x : Q) : Q :=
  (inject_Z (round_half_even (x * 1000)) / 1000)%Q.


(** ** Configuration ([api.py], module level) *)

Definition OLLAMA_API_URL : string := "http://localhost:11434/api/generate".
Definition DEFAULT_AI_MODEL : string := "llama2".

(** ** Exceptions, the world and the environment *)

(** The exception classes the [except] clauses of [api.py] tell apart.  All
    of them derive from [Exception]. *)
Inductive exn_class : Type :=
| ExConnectionError   (* requests.exceptions.ConnectionError *)
| ExTimeout           (* requests.exceptions.Timeout, not a ConnectionError *)
| ExOther.            (* any other Exception *)

Record exn : Type := { exn_kind : exn_class; exn_str : string }.

Inductive outcome (A : Type) : Type :=
| Return (a : A)
| Raise (e : exn).
Arguments Return {A} a.
Arguments Raise {A} e.

(** One line of [logs/ai_hub_log.jsonl], before [json.dumps]. *)
Record LogEntry : Type := {
  log_timestamp : string;
  log_user_input : string;
  log_ai_response : json;
  log_model : json;
  log_time_taken_seconds : Q;
  log_error : option string;
  log_request_id : Z
}.

(** The dictionary [generate_response] returns. *)
Record GenerationResult : Type := {
  res_response : json;
  res_model : json;
  res_time_taken_seconds : Q;
  res_offline : bool;
  res_request_id : Z
}.

(** What the program does to its surroundings, in program order. *)
Inductive Event : Type :=
| EvTime (t : Q)                                  (* time.time() *)
| EvCount (n : Z)                                 (* total_requests := n *)
| EvPost (url : string) (body : json) (timeout : Z)   (* requests.post *)
| EvWrite (e : LogEntry) (ok : bool)              (* open + write *)
| EvPrint (line : string).                        (* print *)

(** The state shared by all calls: the one [ai_hub] instance, the log file
    and the standard output, with the history of events (oldest first). *)
Record World : Type := {
  total_requests : Z;
  log_file : list LogEntry;
  stdout : list string;
  history : list Event
}.

(** The answer of the backend to one [requests.post]. *)
Record Response : Type := {
  status_code : Z;
  response_json : outcome json     (* what response.json() does *)
}.

(** What the surroundings decide during one [generate_response] call. *)
Record Env : Type := {
  time_start : Q;                      (* time.time() on entry *)
  time_end : Q;                        (* time.time() after the backend *)
  requests_post : json -> outcome Response;
  datetime_now : datetime;             (* local time, read by rule 4 only *)
  datetime_utcnow : datetime;          (* read for the log entry *)
  file_write : option exn              (* Some e: open or write raises e *)
}.

(** A fresh process: [LocalAIHub.__init__] and an empty log. *)
Definition init_world : World :=
  {| total_requests := 0; log_file := []; stdout := []; history := [] |}.

(** ** The monad of Python code: state and exceptions *)

Definition Py (A : Type) : Type := World -> outcome A * World.

Definition ret {A} (a : A) : Py A := fun w => (Return a, w).

Definition raise {A} (e : exn) : Py A := fun w => (Raise e, w).

Definition bind {A B} (m : Py A) (k : A -> Py B) : Py B :=
  fun w =>
    match m w with
    | (Return a, w') => k a w'
    | (Raise e, w') => (Raise e, w')
    end.

(** [try: m  except Exception as e: h e] *)
Definition try_except {A} (m : Py A) (h : exn -> Py A) : Py A :=
  fun w =>
    match m w with
    | (Return a, w') => (Return a, w')
    | (Raise e, w') => h e w'
    end.

Declare Scope py_scope.
Delimit Scope py_scope with py.
Notation "x <- m ;; k" := (bind m (fun x => k))
  (at level 61, m at next level, right associativity) : py_scope.
Notation "' pat <- m ;; k" := (bind m (fun x => match x with pat => k end))
  (at level 61, pat pattern, m at next level, right associativity) : py_scope.
Notation "m ;; k" := (bind m (fun _ => k))
  (at level 61, right associativity) : py_scope.

Definition emit (e : Event) (w : World) : World :=
  {| total_requests := total_requests w; log_file := log_file w;
     stdout := stdout w; history := history w ++ [e] |}.

(** [time.time()], answered by the environment with [t]. *)
Definition time_time (t : Q) : Py Q := fun w => (Return t, emit (EvTime t) w).

(** [self.total_requests] *)
Definition get_total_requests : Py Z := fun w => (Return (total_requests w), w).

(** [self.total_requests = n] *)
Definition set_total_requests (n : Z) : Py unit :=
  fun w =>
    (Return tt,
     emit (EvCount n)
       {| total_requests := n; log_file := log_file w;
          stdout := stdout w; history := history w |}).

(** [print(line)] *)
Definition print (line : string) : Py unit :=
  fun w =>
    (Return tt,
     emit (EvPrint line)
       {| total_requests := total_requests w; log_file := log_file w;
          stdout := stdout w ++ [line]; history := history w |}).

(** [with open(LOG_FILE, "a") as file: file.write(json.dumps(e) + "\n")] *)
Definition append_log (failure : option exn) (e : LogEntry) : Py unit :=
  fun w =>
    match failure with
    | None =>
        (Return tt,
         emit (EvWrite e true)
           {| total_requests := total_requests w;
              log_file := log_file w ++ [e];
              stdout := stdout w; history := history w |})
    | Some x => (Raise x, emit (EvWrite e false) w)
    end.

(** [requests.post(url, json=body, timeout=timeout)] *)
Definition post (env : Env) (url : string) (body : json) (timeout : Z)
  : Py Response :=
  fun w => (requests_post env body, emit (EvPost url body timeout) w).

(** [response.json()] *)
Definition json_of (r : Response) : Py json := fun w => (response_json r, w).

(** The exceptions the dynamic typing of Python raises.  Their texts are
    abridged: the route copies them into the body of its 500 reply and
    nothing else reads them. *)
Definition AttributeError (what : string) : exn :=
  {| exn_kind := ExOther; exn_str := what |}.
Definition TypeError (what : string) : exn :=
  {| exn_kind := ExOther; exn_str := what |}.
Definition KeyError (what : string) : exn :=
  {| exn_kind := ExOther; exn_str := what |}.

(** [v.get(key, default)]: a method of [dict] only. *)
Definition py_get (v : json) (key : string) (default : json) : Py json :=
  match v with
  | JObj items =>
      ret (match PyVal.lookup key items with Some x => x | None => default end)
  | _ => raise (AttributeError "object has no attribute 'get'")
  end.

(** [key in v] for a string [key]: membership in a [dict] or a [list],
    substring of a [str], a [TypeError] on the rest. *)
Definition py_in (key : string) (v : json) : Py bool :=
  match v with
  | JObj items =>
      ret (match PyVal.lookup key items with Some _ => true | None => false end)
  | JArr l => ret (existsb (PyVal.is_str key) l)
  | JStr s => ret (PyStr.contains key s)
  | _ => raise (TypeError "argument is not iterable")
  end.

(** [v[key]] for a string [key]. *)
Definition py_getitem (v : json) (key : string) : Py json :=
  match v with
  | JObj items =>
      match PyVal.lookup key items with
      | Some x => ret x
      | None => raise (KeyError key)
      end
  | _ => raise (TypeError "indices must be integers")
  end.

(** ** [class LocalAIHub] *)

Open Scope py_scope.

(** [LocalAIHub._save_interaction] *)
Definition _save_interaction (env : Env) (user_input : string)
    (ai_response : json) (model : json) (time_taken : Q)
    (error : option string) : Py unit :=
  request_id <- get_total_requests ;;
  let log_entry :=
    {| log_timestamp := DateTime.isoformat (datetime_utcnow env);
       log_user_input := user_input;
       log_ai_response := ai_response;
       log_model := model;
       log_time_taken_seconds := round3 time_taken;
       log_error := error;
       log_request_id := request_id |} in
  try_except
    (append_log (file_write env) log_entry)
    (fun e => print ("Could not save log: " ++ exn_str e)).

(** The body [_query_ollama] sends. *)
Definition request_data (user_input : string) (model : json) : json :=
  JObj [("model", model); ("prompt", JStr user_input); ("stream", JBool false)].

(** [LocalAIHub._query_ollama]: the reply (or [None]) and the error text (or
    [None]).  A [ConnectTimeout] is both a [ConnectionError] and a [Timeout]
    and is caught by the first clause: it is an [ExConnectionError] here. *)
Definition _query_ollama (env : Env) (user_input : string) (model : json)
  : Py (json * option string) :=
  try_except
    (response <- post env OLLAMA_API_URL (request_data user_input model) 30 ;;
     if (status_code response =? 200)%Z then
       result <- json_of response ;;
       text <- py_get result "response" (JStr "No response generated") ;;
       ret (text, None)
     else
       ret (JNull,
            Some ("Ollama API error: " ++ PyStr.str_of_int (status_code response))))
    (fun e =>
       match exn_kind e with
       | ExConnectionError =>
           ret (JNull, Some "Ollama isn't running - please start it!")
       | ExTimeout => ret (JNull, Some "Request took too long")
       | ExOther => ret (JNull, Some ("Something went wrong: " ++ exn_str e))
       end).

(** [LocalAIHub._create_fallback_response]; [now] is what [datetime.now()]
    answers, which only the fourth branch asks for. *)
Definition _create_fallback_response (now : datetime) (user_input : string)
  : string :=
  let input_lower := PyStr.lower user_input in
  if PyStr.any_in ["hello"; "hi"; "hey"] input_lower then
    "Hi there! I'm your local AI (" ++ DEFAULT_AI_MODEL
    ++ ") running offline on your computer."
  else if PyStr.any_in ["who"; "what are you"] input_lower then
    "I'm LocalAIHub, your offline AI assistant using the " ++ DEFAULT_AI_MODEL
    ++ " model."
  else if PyStr.any_in ["help"; "what can you do"] input_lower then
    "I can answer questions and help with tasks, all offline for privacy and speed."
  else if PyStr.contains "time" input_lower then
    "It's currently " ++ DateTime.strftime now ++ "."
  else
    "I'm your offline AI (" ++ DEFAULT_AI_MODEL ++ "). You said: '"
    ++ PyStr.take 50 user_input ++ "...' - I'm handling this locally for privacy.".

(** [LocalAIHub.generate_response] *)
Definition generate_response (env : Env) (user_input : string) (model : json)
  : Py GenerationResult :=
  start_time <- time_time (time_start env) ;;
  n <- get_total_requests ;;
  set_total_requests (n + 1) ;;
  '(response, error) <- _query_ollama env user_input model ;;
  let '(response, model_used, error) :=
    if PyVal.is_None response then
      (JStr (_create_fallback_response (datetime_now env) user_input),
       JStr "fallback-response", error)
    else (response, model, None) in
  now <- time_time (time_end env) ;;
  let time_taken := (now - start_time)%Q in
  _save_interaction env user_input response model_used time_taken error ;;
  request_id <- get_total_requests ;;
  ret {| res_response := response;
         res_model := model_used;
         res_time_taken_seconds := round3 time_taken;
         res_offline := true;
         res_request_id := request_id |}.

(** ** The [/generate] route *)

(** What the route hands back to Flask: a body and a status. *)
Record HttpReply : Type := { reply_body : json; reply_status : Z }.

Definition error_body (message : string) : json :=
  JObj [("error", JStr message)].

(** [jsonify(result)] *)
Definition jsonify (r : GenerationResult) : json :=
  JObj [("response", res_response r);
        ("model", res_model r);
        ("time_taken_seconds", JNum (res_time_taken_seconds r));
        ("offline", JBool (res_offline r));
        ("request_id", JNum (inject_Z (res_request_id r)))].

(** The view function [generate]; [get_json] is what [request.get_json()]
    does with the request at hand: the loaded body, or an exception. *)
Definition generate (env : Env) (get_json : outcome json) : Py HttpReply :=
  try_except
    (data <- (fun w => (get_json, w)) ;;
     has_prompt <- (if PyVal.truthy data then py_in "prompt" data else ret false) ;;
     if negb has_prompt then
       ret {| reply_body := error_body "Please include a 'prompt' in your request";
              reply_status := 400 |}
     else
       user_input <- py_getitem data "prompt" ;;
       model <- py_get data "model" (JStr DEFAULT_AI_MODEL) ;;
       match user_input with
       | JStr prompt =>
           if String.eqb (PyStr.strip prompt) EmptyString then
             ret {| reply_body := error_body "Prompt cannot be empty";
                    reply_status := 400 |}
           else
             result <- generate_response env prompt model ;;
             ret {| reply_body := jsonify result; reply_status := 200 |}
       | _ => raise (AttributeError "object has no attribute 'strip'")
       end)
    (fun e =>
       ret {| reply_body := error_body ("Something went wrong: " ++ exn_str e);
              reply_status := 500 |}).

(** ** Successive calls on one instance *)

(** One call as the caller sees it: its environment and its arguments. *)
Record Call : Type := {
  call_env : Env;
  call_prompt : string;
  call_model : json
}.

(** The calls of a single-threaded caller, one after the other; the
    outcomes are listed in call order. *)
Fixpoint run_calls (calls : list Call) (w : World)
  : list (outcome GenerationResult) * World :=
  match calls with
  | [] => ([], w)
  | c :: rest =>
      let '(o, w1) := generate_response (call_env c) (call_prompt c)
                        (call_model c) w in
      let '(os, w2) := run_calls rest w1 in
      (o :: os, w2)
  end.

(** ** Closed forms

    The value and the final world of a call, written without the monad.
    [generate_response_run] below proves that the code computes them. *)

(** The pair [_query_ollama] returns; it does not depend on the world. *)
Definition backend_reply (env : Env) (user_input : string) (model : json)
  : json * option string :=
  match fst (_query_ollama env user_input model init_world) with
  | Return r => r
  | Raise _ => (JNull, None)
  end.

(** The reply, the model name and the error text a call settles on. *)
Definition settled (env : Env) (user_input : string) (model : json)
  : json * json * option string :=
  let '(response, error) := backend_reply env user_input model in
  if PyVal.is_None response then
    (JStr (_create_fallback_response (datetime_now env) user_input),
     JStr "fallback-response", error)
  else (response, model, None).

Definition settled_response env user_input model : json :=
  fst (fst (settled env user_input model)).
Definition settled_model env user_input model : json :=
  snd (fst (settled env user_input model)).
Definition settled_error env user_input model : option string :=
  snd (settled env user_input model).

Definition elapsed (env : Env) : Q := (time_end env - time_start env)%Q.

(** The result of the call that moves the counter to [id]. *)
Definition result_of (env : Env) (user_input : string) (model : json) (id : Z)
  : GenerationResult :=
  {| res_response := settled_response env user_input model;
     res_model := settled_model env user_input model;
     res_time_taken_seconds := round3 (elapsed env);
     res_offline := true;
     res_request_id := id |}.

(** The log entry of that call. *)
Definition entry_of (env : Env) (user_input : string) (model : json) (id : Z)
  : LogEntry :=
  {| log_timestamp := DateTime.isoformat (datetime_utcnow env);
     log_user_input := user_input;
     log_ai_response := settled_response env user_input model;
     log_model := settled_model env user_input model;
     log_time_taken_seconds := round3 (elapsed env);
     log_error := settled_error env user_input model;
     log_request_id := id |}.

(** What reaches the log file, and what is printed instead. *)
Definition written (env : Env) (e : LogEntry) : list LogEntry :=
  match file_write env with None => [e] | Some _ => [] end.

Definition diagnostic (env : Env) : list string :=
  match file_write env with
  | None => []
  | Some x => ["Could not save log: " ++ exn_str x]
  end.

Definition write_ok (env : Env) : bool :=
  match file_write env with None => true | Some _ => false end.

(** The events of one call, in order. *)
Definition events_of (env : Env) (user_input : string) (model : json) (id : Z)
  : list Event :=
  [EvTime (time_start env);
   EvCount id;
   EvPost OLLAMA_API_URL (request_data user_input model) 30;
   EvTime (time_end env);
   EvWrite (entry_of env user_input model id) (write_ok env)]
  ++ map EvPrint (diagnostic env).

Definition after_call (env : Env) (user_input : string) (model : json)
    (w : World) : World :=
  let id := (total_requests w + 1)%Z in
  {| total_requests := id;
     log_file := log_file w ++ written env (entry_of env user_input model id);
     stdout := stdout w ++ diagnostic env;
     history := history w ++ events_of env user_input model id |}.

(** ** Vocabulary of the properties *)

(** [trigger] occurs in [prompt] when letter case is ignored: some stretch of
    the prompt lowers to it. *)
Definition occurs_ci (trigger prompt : string) : Prop :=
  exists pre mid post,
    prompt = pre ++ mid ++ post /\ PyStr.lower mid = trigger.

(** The characters the triggers are written with: the small letters and the
    blank. *)
Definition plain (t : ascii) : bool :=
  let n := N_of_ascii t in ((97 <=? n) && (n <=? 122) || (n =? 32))%N.

Fixpoint all_plain (s : string) : bool :=
  match s with
  | EmptyString => true
  | String t r => plain t && all_plain r
  end.

(** [c] is the character [t] of a trigger, or the capital of that letter
    (32 code points below the small one). *)
Definition same_letter (t c : ascii) : Prop :=
  c = t \/
  ((97 <= N_of_ascii t <= 122)%N /\ (N_of_ascii c + 32 = N_of_ascii t)%N).

(** [text] spells [trigger], each letter small or capital. *)
Fixpoint spells (trigger text : string) : Prop :=
  match trigger, text with
  | EmptyString, EmptyString => True
  | String t trigger', String c text' => same_letter t c /\ spells trigger' text'
  | _, _ => False
  end.

(** The prompt mentions the trigger: somewhere in it the trigger is spelt,
    in small letters, in capitals or in a mix of both. *)
Definition mentions (trigger prompt : string) : Prop :=
  exists pre mid post, prompt = pre ++ mid ++ post /\ spells trigger mid.

Definition greets (prompt : string) : Prop :=
  mentions "hello" prompt \/ mentions "hi" prompt \/ mentions "hey" prompt.
Definition asks_who (prompt : string) : Prop :=
  mentions "who" prompt \/ mentions "what are you" prompt.
Definition asks_help (prompt : string) : Prop :=
  mentions "help" prompt \/ mentions "what can you do" prompt.

Definition greeting_trigger (prompt : string) : Prop :=
  occurs_ci "hello" prompt \/ occurs_ci "hi" prompt \/ occurs_ci "hey" prompt.
Definition identity_trigger (prompt : string) : Prop :=
  occurs_ci "who" prompt \/ occurs_ci "what are you" prompt.
Definition capability_trigger (prompt : string) : Prop :=
  occurs_ci "help" prompt \/ occurs_ci "what can you do" prompt.

(** The five replies of [_create_fallback_response]. *)
Definition greeting_reply : string :=
  "Hi there! I'm your local AI (llama2) running offline on your computer.".
Definition identity_reply : string :=
  "I'm LocalAIHub, your offline AI assistant using the llama2 model.".
Definition capability_reply : string :=
  "I can answer questions and help with tasks, all offline for privacy and speed.".
Definition time_reply (now : datetime) : string :=
  "It's currently " ++ DateTime.strftime now ++ ".".
Definition generic_reply (prompt : string) : string :=
  "I'm your offline AI (llama2). You said: '" ++ PyStr.take 50 prompt
  ++ "...' - I'm handling this locally for privacy.".

(** Every character of [s] is white space (the empty text included). *)
Definition whitespace_only (s : string) : Prop :=
  forall c, In c (list_ascii_of_string s) -> PyStr.isspace c = true.

(** A failed backend attempt and the error text [_query_ollama] gives it:
    the request raised, or the reply has a status other than 200. *)
Inductive backend_failure : outcome Response -> string -> Prop :=
| failure_refused (e : exn) :
    exn_kind e = ExConnectionError ->
    backend_failure (Raise e) "Ollama isn't running - please start it!"
| failure_timeout (e : exn) :
    exn_kind e = ExTimeout ->
    backend_failure (Raise e) "Request took too long"
| failure_other (e : exn) :
    exn_kind e = ExOther ->
    backend_failure (Raise e) ("Something went wrong: " ++ exn_str e)
| failure_status (r : Response) :
    status_code r <> 200%Z ->
    backend_failure (Return r)
      ("Ollama API error: " ++ PyStr.str_of_int (status_code r)).

Definition backend_fails (o : outcome Response) : Prop :=
  match o with
  | Raise _ => True
  | Return r => status_code r <> 200%Z
  end.

(** The same environment with another fate for the log write. *)
Definition with_file_write (env : Env) (failure : option exn) : Env :=
  {| time_start := time_start env;
     time_end := time_end env;
     requests_post := requests_post env;
     datetime_now := datetime_now env;
     datetime_utcnow := datetime_utcnow env;
     file_write := failure |}.


(** Each element is smaller than the next one. *)
Fixpoint increasing (l : list Z) : Prop :=
  match l with
  | a :: (b :: _) as rest => (a < b)%Z /\ increasing rest
  | _ => True
  end.

(** [first, first + 1, ...], [count] numbers. *)
Fixpoint count_from (first : Z) (count : nat) : list Z :=
  match count with
  | O => []
  | S k => first :: count_from (first + 1) k
  end.

(** The results of successive calls, the first of which moves the counter
    to [first]. *)
Fixpoint results_from (first : Z) (calls : list Call) : list GenerationResult :=
  match calls with
  | [] => []
  | c :: rest =>
      result_of (call_env c) (call_prompt c) (call_model c) first
      :: results_from (first + 1) rest
  end.

(** The records these calls leave in the log file. *)
Fixpoint entries_from (first : Z) (calls : list Call) : list LogEntry :=
  match calls with
  | [] => []
  | c :: rest =>
      written (call_env c)
        (entry_of (call_env c) (call_prompt c) (call_model c) first)
      ++ entries_from (first + 1) rest
  end.

(** ** Overlapping calls

    Flask serves each request on a thread of its own and nothing in [api.py]
    locks the hub: the interpreter may pass from one thread to another
    between any two operations.  What the threads share is the counter, the
    log file and the output, so a call is cut into turns with one operation
    on the shared state in each: the load and the store of
    [self.total_requests += 1] are two turns, and so are the read of the
    counter for the log entry, the write of the log line, the diagnostic
    print and the read of the counter for the result.  What lies between
    two such operations touches the local variables of the call only. *)

Module Threads.

(** Where a call stands, with the local variables assigned so far. *)
Inductive Thread : Type :=
| Ready (c : Call)
| Started (c : Call) (start_time : Q)
| Loaded (c : Call) (start_time : Q) (n : Z)
| Counted (c : Call) (start_time : Q)
| Answered (c : Call) (start_time : Q) (reply : json * option string)
| Timed (c : Call) (response model_used : json) (error : option string)
    (time_taken : Q)
| Entered (c : Call) (response model_used : json) (time_taken : Q)
    (log_entry : LogEntry)
| Failed (c : Call) (response model_used : json) (time_taken : Q) (e : exn)
| Logged (c : Call) (response model_used : json) (time_taken : Q)
| Done (o : outcome GenerationResult).

(** Run [m] and go on with [next]; an exception ends the call. *)
Definition advance {A} (m : Py A) (next : A -> Thread) (w : World)
  : Thread * World :=
  match m w with
  | (Return a, w') => (next a, w')
  | (Raise e, w') => (Done (Raise e), w')
  end.

(** One turn of a thread: [generate_response] and, from [Timed] to
    [Logged], the body of [_save_interaction], one operation at a time. *)
Definition step (t : Thread) (w : World) : Thread * World :=
  match t with
  | Ready c =>
      advance (time_time (time_start (call_env c))) (Started c) w
  | Started c start_time =>
      advance get_total_requests (Loaded c start_time) w
  | Loaded c start_time n =>
      advance (set_total_requests (n + 1)) (fun _ => Counted c start_time) w
  | Counted c start_time =>
      advance (_query_ollama (call_env c) (call_prompt c) (call_model c))
        (Answered c start_time) w
  | Answered c start_time (response, error) =>
      let '(response, model_used, error) :=
        if PyVal.is_None response then
          (JStr (_create_fallback_response (datetime_now (call_env c))
                   (call_prompt c)),
           JStr "fallback-response", error)
        else (response, call_model c, None) in
      advance (time_time (time_end (call_env c)))
        (fun now => Timed c response model_used error (now - start_time)%Q) w
  | Timed c response model_used error time_taken =>
      advance get_total_requests
        (fun request_id =>
           Entered c response model_used time_taken
             {| log_timestamp :=
                  DateTime.isoformat (datetime_utcnow (call_env c));
                log_user_input := call_prompt c;
                log_ai_response := response;
                log_model := model_used;
                log_time_taken_seconds := round3 time_taken;
                log_error := error;
                log_request_id := request_id |}) w
  | Entered c response model_used time_taken log_entry =>
      match append_log (file_write (call_env c)) log_entry w with
      | (Return _, w') => (Logged c response model_used time_taken, w')
      | (Raise e, w') => (Failed c response model_used time_taken e, w')
      end
  | Failed c response model_used time_taken e =>
      advance (print ("Could not save log: " ++ exn_str e))
        (fun _ => Logged c response model_used time_taken) w
  | Logged c response model_used time_taken =>
      advance get_total_requests
        (fun request_id =>
           Done (Return {| res_response := response;
                           res_model := model_used;
                           res_time_taken_seconds := round3 time_taken;
                           res_offline := true;
                           res_request_id := request_id |})) w
  | Done o => (Done o, w)
  end.

(** [k] turns of the same thread in a row. *)
Fixpoint turns (k : nat) (t : Thread) (w : World) : Thread * World :=
  match k with
  | O => (t, w)
  | S k' => let '(t', w') := step t w in turns k' t' w'
  end.

Fixpoint update (i : nat) (t : Thread) (ts : list Thread) : list Thread :=
  match ts, i with
  | [], _ => []
  | _ :: rest, O => t :: rest
  | x :: rest, S k => x :: update k t rest
  end.

(** A schedule names the thread that runs next, turn after turn. *)
Fixpoint run (schedule : list nat) (ts : list Thread) (w : World)
  : list Thread * World :=
  match schedule with
  | [] => (ts, w)
  | i :: rest =>
      match nth_error ts i with
      | Some t => let '(t', w') := step t w in run rest (update i t' ts) w'
      | None => run rest ts w
      end
  end.

(** A call needs at most nine turns. *)
Definition whole_call : nat := 9.

(** The schedule without overlap: each call runs to its end in turn. *)
Fixpoint one_by_one (first count : nat) : list nat :=
  match count with
  | O => []
  | S k => (repeat first whole_call ++ one_by_one (S first) k)%list
  end.

(** The request ids of the threads that returned. *)
Fixpoint returned_ids (ts : list Thread) : list Z :=
  match ts with
  | [] => []
  | Done (Return r) :: rest => res_request_id r :: returned_ids rest
  | _ :: rest => returned_ids rest
  end.

Definition all_done (ts : list Thread) : bool :=
  forallb (fun t => match t with Done _ => true | _ => false end) ts.

(** The threads that have stored their increment. *)
Definition weight (t : Thread) : Z :=
  match t with
  | Ready _ | Started _ _ | Loaded _ _ _ => 0
  | _ => 1
  end.

Fixpoint counted (ts : list Thread) : Z :=
  match ts with
  | [] => 0
  | t :: rest => weight t + counted rest
  end.

(** What a thread holds of the counter lies between [base] and [base + k]:
    the value it has loaded, or the id it has returned (which is above
    [base]). *)
Definition thread_ok (base k : Z) (t : Thread) : Prop :=
  match t with
  | Loaded _ _ n => (base <= n <= base + k)%Z
  | Done (Return r) => (base + 1 <= res_request_id r <= base + k)%Z
  | _ => True
  end.

(** The counter never exceeds [base] plus the number of increments stored,
    is above [base] once one is stored, and so are the values held. *)
Definition consistent (base : Z) (ts : list Thread) (w : World) : Prop :=
  (base <= total_requests w <= base + counted ts)%Z /\
  (1 <= counted ts -> base + 1 <= total_requests w)%Z /\
  Forall (thread_ok base (counted ts)) ts.

End Threads.

(** ** Sample inputs *)

Definition noon : datetime :=
  {| year := 2024; month := 3; day := 9; hour := 12; minute := 0;
     second := 5; microsecond := 0 |}.

Definition midnight : datetime :=
  {| year := 2024; month := 3; day := 10; hour := 0; minute := 0;
     second := 0; microsecond := 250 |}.

Definition connection_refused : exn :=
  {| exn_kind := ExConnectionError; exn_str := "Connection refused" |}.

Definition disk_full : exn :=
  {| exn_kind := ExOther; exn_str := "[Errno 28] No space left on device" |}.

(** The backend is down and the log can be written. *)
Definition env_offline : Env :=
  {| time_start := 100; time_end := 100 + (1 # 4);
     requests_post := fun _ => Raise connection_refused;
     datetime_now := noon; datetime_utcnow := noon;
     file_write := None |}.

(** The backend answers 200 with a body that has no ["response"] key. *)
Definition env_no_text : Env :=
  {| time_start := 100; time_end := 101;
     requests_post := fun _ =>
       Return {| status_code := 200;
                 response_json := Return (JObj [("done", JBool true)]) |};
     datetime_now := noon; datetime_utcnow := noon;
     file_write := None |}.

Definition call_offline (prompt : string) : Call :=
  {| call_env := env_offline; call_prompt := prompt;
     call_model := JStr DEFAULT_AI_MODEL |}.

(** ** The rest of [api.py]: status, health and the error handlers *)

Definition LOG_FILE : string := "logs/ai_hub_log.jsonl".

Definition OLLAMA_TAGS_URL : string := "http://localhost:11434/api/tags".

(** [round(x, 1)] and [round(x, 2)] *)
Definition round1 (x : Q) : Q :=
  (inject_Z (round_half_even (x * 10)) / 10)%Q.
Definition round2 (x : Q) : Q :=
  (inject_Z (round_half_even (x * 100)) / 100)%Q.

(** The two figures read off [psutil.virtual_memory()]. *)
Record Memory : Type := { mem_percent : Q; mem_available : Z }.

(** What the surroundings decide during one [get_system_status] call. *)
Record StatusEnv : Type := {
  status_time : Q;                     (* time.time() *)
  virtual_memory : outcome Memory;     (* psutil.virtual_memory() *)
  requests_get : outcome Response;     (* requests.get(tags url, timeout=2) *)
  status_utcnow : datetime             (* datetime.utcnow() *)
}.

(** The dictionary [get_system_status] returns. *)
Record SystemStatus : Type := {
  st_status : string;
  st_uptime_seconds : Q;
  st_requests_handled : Z;
  st_memory_usage_percent : Q;
  st_memory_available_gb : Q;
  st_ollama_running : bool;
  st_log_file : string;
  st_timestamp : string
}.

(** [LocalAIHub.get_system_status]; [start_time] is [self.start_time], set
    once by [__init__].  The bare [except:] around the probe catches every
    exception. *)
Definition get_system_status (senv : StatusEnv) (start_time : Q)
  : Py SystemStatus :=
  now <- time_time (status_time senv) ;;
  let uptime := (now - start_time)%Q in
  memory <- (fun w => (virtual_memory senv, w)) ;;
  ollama_running <-
    try_except
      (response <- (fun w => (requests_get senv, w)) ;;
       ret (status_code response =? 200)%Z)
      (fun _ => ret false) ;;
  requests_handled <- get_total_requests ;;
  ret {| st_status := "running";
         st_uptime_seconds := round1 uptime;
         st_requests_handled := requests_handled;
         st_memory_usage_percent := mem_percent memory;
         st_memory_available_gb :=
           round2 (inject_Z (mem_available memory) / inject_Z (1024 ^ 3));
         st_ollama_running := ollama_running;
         st_log_file := LOG_FILE;
         st_timestamp := DateTime.isoformat (status_utcnow senv) |}.

(** [jsonify(status_info)] *)
Definition jsonify_status (s : SystemStatus) : json :=
  JObj [("status", JStr (st_status s));
        ("uptime_seconds", JNum (st_uptime_seconds s));
        ("requests_handled", JNum (inject_Z (st_requests_handled s)));
        ("memory_usage_percent", JNum (st_memory_usage_percent s));
        ("memory_available_gb", JNum (st_memory_available_gb s));
        ("ollama_running", JBool (st_ollama_running s));
        ("log_file", JStr (st_log_file s));
        ("timestamp", JStr (st_timestamp s))].

(** The view function [status]. *)
Definition status (senv : StatusEnv) (start_time : Q) : Py HttpReply :=
  try_except
    (status_info <- get_system_status senv start_time ;;
     ret {| reply_body := jsonify_status status_info; reply_status := 200 |})
    (fun e =>
       ret {| reply_body := error_body ("Could not fetch status: " ++ exn_str e);
              reply_status := 500 |}).

(** The view function [health]. *)
Definition health (utcnow : datetime) : HttpReply :=
  {| reply_body := JObj [("status", JStr "healthy");
                         ("timestamp", JStr (DateTime.isoformat utcnow))];
     reply_status := 200 |}.

(** The handlers [not_found] and [internal_error]. *)
Definition not_found : HttpReply :=
  {| reply_body := error_body "This endpoint doesn't exist";
     reply_status := 404 |}.
Definition internal_error : HttpReply :=
  {| reply_body := error_body "Something broke on our end";
     reply_status := 500 |}.

(** ** Successive requests to [/generate] *)

Record Request : Type := {
  request_env : Env;
  request_json : outcome json          (* what request.get_json() does *)
}.

(** The requests of one client after the other; replies in request order. *)
Fixpoint serve (requests : list Request) (w : World)
  : list (outcome HttpReply) * World :=
  match requests with
  | [] => ([], w)
  | q :: rest =>
      let '(o, w1) := generate (request_env q) (request_json q) w in
      let '(os, w2) := serve rest w1 in
      (o :: os, w2)
  end.

(** The replies that carry a result. *)
Definition accepted (o : outcome HttpReply) : bool :=
  match o with
  | Return reply => (reply_status reply =? 200)%Z
  | Raise _ => false
  end.

(** The prompt a request is served with: the text under "prompt" of a body
    that is an object, when that text is not blank. *)
Definition served_prompt (body : outcome json) : option string :=
  match body with
  | Return (JObj items) =>
      match PyVal.lookup "prompt" items with
      | Some (JStr prompt) =>
          if String.eqb (PyStr.strip prompt) EmptyString then None
          else Some prompt
      | _ => None
      end
  | _ => None
  end.

(** The model it is served with. *)
Definition served_model (body : outcome json) : json :=
  match body with
  | Return (JObj items) =>
      match PyVal.lookup "model" items with
      | Some m => m
      | None => JStr DEFAULT_AI_MODEL
      end
  | _ => JStr DEFAULT_AI_MODEL
  end.

(** The calls of [generate_response] a list of requests leads to. *)
Fixpoint calls_of (requests : list Request) : list Call :=
  match requests with
  | [] => []
  | q :: rest =>
      match served_prompt (request_json q) with
      | Some prompt =>
          {| call_env := request_env q; call_prompt := prompt;
             call_model := served_model (request_json q) |} :: calls_of rest
      | None => calls_of rest
      end
  end.

(** The reply that carries a result. *)
Definition reply_of (r : GenerationResult) : outcome HttpReply :=
  Return {| reply_body := jsonify r; reply_status := 200 |}.

(** The invariant of the log: an error goes with the fallback model only,
    and a response is never [None]. *)
Definition entry_sound (e : LogEntry) : Prop :=
  (log_error e <> None -> log_model e = JStr "fallback-response") /\
  log_ai_response e <> JNull.

(** ** [cli.py]: the client *)

Module CLI.

Definition DEFAULT_API_URL : string := "http://localhost:5000".

(** [s.rstrip('/')] *)
Fixpoint rstrip_slash (s : string) : string :=
  match s with
  | EmptyString => EmptyString
  | String c r =>
      match rstrip_slash r with
      | EmptyString =>
          if Ascii.eqb c "/"%char then EmptyString else String c EmptyString
      | r' => String c r'
      end
  end.

(** [LocalAIHubCLI.__init__]: the value of [self.api_url]. *)
Definition init (api_url : string) : string := rstrip_slash api_url.

(** What the network does with the two kinds of request. *)
Record Network : Type := {
  net_post : string -> json -> Z -> outcome Response;  (* url, json, timeout *)
  net_get : string -> Z -> outcome Response            (* url, timeout *)
}.

(** [LocalAIHubCLI._send_request]; [api_url] is [self.api_url]. *)
Definition _send_request (net : Network) (api_url : string)
    (endpoint : string) (method : string) (data : json) : bool * json :=
  let url := api_url ++ endpoint in
  let attempt : outcome (bool * json) :=
    match (if String.eqb method "POST" then net_post net url data 30
           else net_get net url 10) with
    | Return response =>
        match response_json response with
        | Return body => Return ((status_code response =? 200)%Z, body)
        | Raise e => Raise e
        end
    | Raise e => Raise e
    end in
  match attempt with
  | Return r => r
  | Raise e =>
      match exn_kind e with
      | ExConnectionError =>
          (false, error_body "Can't reach the LocalAIHub server. Is it running?")
      | ExTimeout => (false, error_body "The request took too long")
      | ExOther => (false, error_body ("Something went wrong: " ++ exn_str e))
      end
  end.

(** The body [ask_ai] posts to [/generate]. *)
Definition ask_data (user_input : string) (model : string) : json :=
  JObj [("prompt", JStr user_input); ("model", JStr model)].

(** What [input("You: ")] does, turn after turn: a line comes in, or the
    user interrupts.  When the list is over the input is at its end. *)
Inductive Typed : Type :=
| Line (s : string)
| CtrlC.

(** What [chat_mode] does, in order.  The call [self.ask_ai(user_input)] is
    kept as one event; what [ask_ai] prints is not part of the trace.  The
    printed texts are the bytes of the source, which is UTF-8. *)
Inductive ChatEvent : Type :=
| Say (line : string)          (* print(line) *)
| Ask (user_input : string).   (* self.ask_ai(user_input) *)

Definition newline : string := String "010"%char EmptyString.

(** [s * n] *)
Fixpoint times (s : string) (n : nat) : string :=
  match n with
  | O => EmptyString
  | S k => s ++ times s k
  end.

(** [user_input.lower() in ['quit', 'exit', 'q']] *)
Definition quits (user_input : string) : bool :=
  existsb (String.eqb (PyStr.lower user_input)) ["quit"; "exit"; "q"].

(** The [while True:] loop of [chat_mode] with its two [except] clauses:
    [EOFError] at the end of the input, [KeyboardInterrupt] at [CtrlC]. *)
Fixpoint chat_loop (typed : list Typed) : list ChatEvent :=
  match typed with
  | [] => [Say (newline ++ newline ++ "👋 See you later!")]
  | CtrlC :: _ => [Say (newline ++ newline ++ "👋 See you later!")]
  | Line s :: rest =>
      let user_input := PyStr.strip s in
      if quits user_input then [Say "👋 See you later!"]
      else if String.eqb user_input EmptyString then chat_loop rest
      else
        Say EmptyString :: Ask user_input :: Say (times "-" 50)
        :: chat_loop rest
  end.

(** [LocalAIHubCLI.chat_mode] *)
Definition chat_mode (typed : list Typed) : list ChatEvent :=
  Say "🚀 Welcome to LocalAIHub Chat Mode!"
  :: Say ("Type 'quit', 'exit', or press Ctrl+C to stop" ++ newline)
  :: chat_loop typed.

(** The prompts a chat hands to [ask_ai]. *)
Fixpoint asked (events : list ChatEvent) : list string :=
  match events with
  | [] => []
  | Ask u :: rest => u :: asked rest
  | Say _ :: rest => asked rest
  end.

(** What the chat asks is trimmed, not empty and not a word that quits. *)
Definition askable (user_input : string) : Prop :=
  user_input <> EmptyString /\
  PyStr.strip user_input = user_input /\
  quits user_input = false.

(** What the client receives for what a view function does: the reply it
    returns, or the reply of the 500 handler when it raises. *)
Definition relay (o : outcome HttpReply) : outcome Response :=
  match o with
  | Return reply =>
      Return {| status_code := reply_status reply;
                response_json := Return (reply_body reply) |}
  | Raise _ =>
      Return {| status_code := reply_status internal_error;
                response_json := Return (reply_body internal_error) |}
  end.

End CLI.

(** ** More sample inputs *)

(** The backend is down and the wall clock is set back by 62 ms while the
    call runs. *)
Definition env_clock_set_back : Env :=
  {| time_start := 100; time_end := 100 - (62 # 1000);
     requests_post := fun _ => Raise connection_refused;
     datetime_now := noon; datetime_utcnow := noon;
     file_write := None |}.

(** The backend answers 200 with the text given. *)
Definition env_online (text : json) : Env :=
  {| time_start := 100; time_end := 102;
     requests_post := fun _ =>
       Return {| status_code := 200;
                 response_json := Return (JObj [("response", text)]) |};
     datetime_now := noon; datetime_utcnow := noon;
     file_write := None |}.

(** The backend answers 200 with a body that is not JSON. *)
Definition env_garbled : Env :=
  {| time_start := 100; time_end := 102;
     requests_post := fun _ =>
       Return {| status_code := 200;
                 response_json :=
                   Raise {| exn_kind := ExOther;
                            exn_str := "Expecting value: line 1 column 1 (char 0)" |} |};
     datetime_now := noon; datetime_utcnow := noon;
     file_write := None |}.

(** A status query while the backend is down. *)
Definition senv_offline : StatusEnv :=
  {| status_time := 160;
     virtual_memory := Return {| mem_percent := 41; mem_available := 8589934592 |};
     requests_get := Raise connection_refused;
     status_utcnow := noon |}.

(** A client whose every request is refused. *)
Definition net_down : CLI.Network :=
  {| CLI.net_post := fun _ _ _ => Raise connection_refused;
     CLI.net_get := fun _ _ => Raise connection_refused |}.

(** A client connected to [/generate] as served in a fresh process. *)
Definition net_fresh : CLI.Network :=
  {| CLI.net_post := fun _ data _ =>
       CLI.relay (fst (generate env_offline (Return data) init_world));
     CLI.net_get := fun _ _ => Raise connection_refused |}.

(** ** Basic facts *)

Lemma _query_ollama_run (env : Env) (user_input : string) (model : json)
    (w : World) :
  _query_ollama env user_input model w
  = (Return (backend_reply env user_input model),
     emit (EvPost OLLAMA_API_URL (request_data user_input model) 30) w).
Proof.
  unfold backend_reply, _query_ollama, try_except, bind, post.
  cbn [fst].
  destruct (requests_post env (request_data user_input model)) as [r | e].
  - destruct (status_code r =? 200)%Z; [ | reflexivity ].
    unfold json_of. destruct (response_json r) as [j | e].
    + destruct j; cbn; try reflexivity.
      all: destruct (exn_kind _); reflexivity.
    + destruct (exn_kind e); reflexivity.
  - destruct (exn_kind e); reflexivity.
Qed.

Lemma generate_response_run (env : Env) (user_input : string) (model : json)
    (w : World) :
  generate_response env user_input model w
  = (Return (result_of env user_input model (total_requests w + 1)),
     after_call env user_input model w).
Proof.
  unfold generate_response, bind at 1 2 3 4.
  cbn [time_time get_total_requests set_total_requests].
  rewrite _query_ollama_run.
  unfold result_of, after_call, events_of, entry_of, written, diagnostic,
    write_ok, settled_response, settled_model, settled_error, settled, elapsed.
  destruct (backend_reply env user_input model) as [response error].
  destruct (PyVal.is_None response);
    unfold _save_interaction, bind, try_except, time_time, get_total_requests,
      append_log, print, ret, emit;
    cbn [total_requests log_file stdout history fst snd];
    destruct (file_write env);
    cbn [total_requests log_file stdout history fst snd map];
    rewrite ?app_nil_r, <- ?app_assoc; reflexivity.
Qed.

(** ** Strings *)

Section StringFacts.

Local Open Scope string_scope.

Lemma prefix_app (n h : string) :
  String.prefix n h = true <-> exists post, h = n ++ post.
Proof.
  revert h. induction n as [| a n IH]; intros h.
  - destruct h; simpl; split; eauto.
  - destruct h as [| b h]; simpl.
    + split; [ discriminate | intros [post H]; discriminate ].
    + destruct (ascii_dec a b) as [-> | Hab].
      * rewrite IH. split; intros [post H]; exists post; congruence.
      * split; [ discriminate | intros [post H]; congruence ].
Qed.

Lemma contains_app (n h : string) :
  PyStr.contains n h = true <-> exists pre post, h = pre ++ n ++ post.
Proof.
  induction h as [| c r IH].
  - cbn [PyStr.contains]. rewrite orb_false_r, prefix_app. split.
    + intros [post H]. exists EmptyString, post. exact H.
    + intros [pre [post H]]. destruct pre; [ | discriminate ].
      exists post. exact H.
  - cbn [PyStr.contains]. rewrite orb_true_iff, prefix_app, IH. split.
    + intros [[post H] | [pre [post H]]].
      * exists EmptyString, post. exact H.
      * exists (String c pre), post. simpl. congruence.
    + intros [pre [post H]]. destruct pre as [| c' pre].
      * left. exists post. exact H.
      * right. exists pre, post. simpl in H. congruence.
Qed.

Lemma lower_app (a b : string) :
  PyStr.lower (a ++ b) = PyStr.lower a ++ PyStr.lower b.
Proof. induction a; simpl; congruence. Qed.

Lemma lower_split (s a b : string) :
  PyStr.lower s = a ++ b ->
  exists s1 s2, s = s1 ++ s2 /\ PyStr.lower s1 = a /\ PyStr.lower s2 = b.
Proof.
  revert s. induction a as [| x a IH]; intros s H.
  - exists EmptyString, s. auto.
  - destruct s as [| c s]; simpl in H; [ discriminate | ].
    injection H as Hc Hs. destruct (IH s Hs) as [s1 [s2 [E [H1 H2]]]].
    exists (String c s1), s2. simpl. repeat split; congruence.
Qed.

(** The test of the code, [trigger in prompt.lower()], is the occurrence of
    the trigger in the prompt with letter case ignored. *)
Lemma contains_lower (trigger prompt : string) :
  PyStr.contains trigger (PyStr.lower prompt) = true <-> occurs_ci trigger prompt.
Proof.
  rewrite contains_app. unfold occurs_ci. split.
  - intros [a [b H]].
    destruct (lower_split _ _ _ H) as [pre [rest [E [_ Hrest]]]].
    destruct (lower_split _ _ _ Hrest) as [mid [post [E' [Hmid _]]]].
    exists pre, mid, post. split; congruence.
  - intros [pre [mid [post [E H]]]].
    exists (PyStr.lower pre), (PyStr.lower post).
    rewrite E, !lower_app. congruence.
Qed.

Lemma greeting_test (prompt : string) :
  PyStr.any_in ["hello"; "hi"; "hey"] (PyStr.lower prompt) = true
  <-> greeting_trigger prompt.
Proof.
  unfold PyStr.any_in, greeting_trigger. cbn [existsb].
  rewrite !orb_true_iff, !contains_lower. intuition discriminate.
Qed.

Lemma identity_test (prompt : string) :
  PyStr.any_in ["who"; "what are you"] (PyStr.lower prompt) = true
  <-> identity_trigger prompt.
Proof.
  unfold PyStr.any_in, identity_trigger. cbn [existsb].
  rewrite !orb_true_iff, !contains_lower. intuition discriminate.
Qed.

Lemma capability_test (prompt : string) :
  PyStr.any_in ["help"; "what can you do"] (PyStr.lower prompt) = true
  <-> capability_trigger prompt.
Proof.
  unfold PyStr.any_in, capability_trigger. cbn [existsb].
  rewrite !orb_true_iff, !contains_lower. intuition discriminate.
Qed.

Lemma lstrip_empty (s : string) :
  PyStr.lstrip s = EmptyString <-> PyStr.all_space s = true.
Proof.
  induction s as [| c r IH]; simpl.
  - tauto.
  - destruct (PyStr.isspace c); simpl; [ exact IH | ].
    split; discriminate.
Qed.

Lemma rstrip_empty (s : string) :
  PyStr.rstrip s = EmptyString <-> PyStr.all_space s = true.
Proof.
  induction s as [| c r IH]; simpl.
  - tauto.
  - destruct (PyStr.rstrip r) eqn:E.
    + destruct (PyStr.isspace c); simpl.
      * rewrite <- IH. tauto.
      * split; discriminate.
    + rewrite andb_true_iff, <- IH. split; [ discriminate | ].
      intros [_ H]. discriminate.
Qed.

Lemma all_space_lstrip (s : string) :
  PyStr.all_space (PyStr.lstrip s) = PyStr.all_space s.
Proof.
  induction s as [| c r IH]; simpl; [ reflexivity | ].
  destruct (PyStr.isspace c) eqn:E; simpl; [ exact IH | ].
  rewrite E. reflexivity.
Qed.

Lemma all_space_spec (s : string) :
  PyStr.all_space s = true <-> whitespace_only s.
Proof.
  unfold whitespace_only. induction s as [| c r IH]; simpl.
  - split; [ intros _ x [] | reflexivity ].
  - rewrite andb_true_iff, IH. split.
    + intros [Hc Hr] x [<- | Hx]; auto.
    + intros H. split; [ apply H; auto | intros x Hx; apply H; auto ].
Qed.

(** [not prompt.strip()] holds of the texts made of white space only. *)
Lemma strip_empty (s : string) :
  PyStr.strip s = EmptyString <-> whitespace_only s.
Proof.
  unfold PyStr.strip.
  rewrite rstrip_empty, all_space_lstrip. apply all_space_spec.
Qed.

Lemma lower_char_plain (t c : ascii) :
  plain t = true -> (PyStr.lower_char c = t <-> same_letter t c).
Proof.
  unfold plain, same_letter, PyStr.lower_char. intros P.
  pose proof (N_ascii_bounded c) as Bc.
  rewrite orb_true_iff, andb_true_iff, !N.leb_le, N.eqb_eq in P.
  destruct ((65 <=? N_of_ascii c) && (N_of_ascii c <=? 90)
            || (192 <=? N_of_ascii c) && (N_of_ascii c <=? 214)
            || (216 <=? N_of_ascii c) && (N_of_ascii c <=? 222))%N eqn:C.
  - rewrite !orb_true_iff, !andb_true_iff, !N.leb_le in C. split.
    + intros H. apply (f_equal N_of_ascii) in H.
      rewrite N_ascii_embedding in H by lia. right. lia.
    + intros [-> | [_ H]]; [ lia | ].
      rewrite H. apply ascii_N_embedding.
  - rewrite !orb_false_iff, !andb_false_iff, !N.leb_gt in C. split.
    + intros H. left. exact H.
    + intros [H | [R H]]; [ exact H | lia ].
Qed.

Lemma spells_lower (trigger text : string) :
  all_plain trigger = true ->
  (PyStr.lower text = trigger <-> spells trigger text).
Proof.
  revert text. induction trigger as [| t trigger IH]; intros text P.
  - destruct text; cbn; split; intros H; try reflexivity; try discriminate H;
      try contradiction.
  - cbn [all_plain] in P. apply andb_true_iff in P. destruct P as [Pt P].
    destruct text as [| c text]; cbn [PyStr.lower spells].
    + split; [ discriminate | contradiction ].
    + rewrite <- (IH text P), <- (lower_char_plain t c Pt). split.
      * intros H. injection H as H1 H2. auto.
      * intros [H1 H2]. congruence.
Qed.

(** For a trigger in small letters, the occurrence the code tests is the
    mention of the trigger in any mix of small letters and capitals. *)
Lemma occurs_mentions (trigger prompt : string) :
  all_plain trigger = true ->
  (occurs_ci trigger prompt <-> mentions trigger prompt).
Proof.
  intros P. unfold occurs_ci, mentions.
  split; intros [pre [mid [post [E H]]]]; exists pre, mid, post;
    (split; [ exact E | ]); apply (spells_lower trigger mid P); exact H.
Qed.

Lemma mentions_test (trigger prompt : string) :
  all_plain trigger = true ->
  (PyStr.contains trigger (PyStr.lower prompt) = true <-> mentions trigger prompt).
Proof.
  intros P. rewrite contains_lower. apply occurs_mentions, P.
Qed.

Lemma greets_trigger (prompt : string) : greets prompt <-> greeting_trigger prompt.
Proof.
  unfold greets, greeting_trigger.
  rewrite !occurs_mentions by reflexivity. reflexivity.
Qed.

Lemma asks_who_trigger (prompt : string) :
  asks_who prompt <-> identity_trigger prompt.
Proof.
  unfold asks_who, identity_trigger.
  rewrite !occurs_mentions by reflexivity. reflexivity.
Qed.

Lemma asks_help_trigger (prompt : string) :
  asks_help prompt <-> capability_trigger prompt.
Proof.
  unfold asks_help, capability_trigger.
  rewrite !occurs_mentions by reflexivity. reflexivity.
Qed.

End StringFacts.

(** ** Dates and durations *)

Section DateFacts.

Local Open Scope Z_scope.

Lemma digit_code (d : Z) :
  0 <= d < 10 -> N_of_ascii (DateTime.digit d) = (48 + Z.to_N d)%N.
Proof.
  intros H. unfold DateTime.digit. apply N_ascii_embedding. lia.
Qed.

Lemma digit_is_digit (d : Z) :
  0 <= d < 10 -> DateTime.is_digit (DateTime.digit d) = true.
Proof.
  intros H. unfold DateTime.is_digit. rewrite (digit_code d H).
  apply andb_true_iff. split; apply N.leb_le; lia.
Qed.

Lemma digit_value_digit (d : Z) :
  0 <= d < 10 -> DateTime.digit_value (DateTime.digit d) = d.
Proof.
  intros H. unfold DateTime.digit_value. rewrite (digit_code d H). lia.
Qed.

Lemma mod10_digit (n : Z) : 0 <= n mod 10 < 10.
Proof. apply Z.mod_pos_bound. lia. Qed.

(** From the year 1000 on [strftime] writes the shape
    [YYYY-MM-DD HH:MM:SS]. *)
Lemma strftime_shape (d : datetime) :
  1000 <= year d ->
  DateTime.is_timestamp (DateTime.strftime d) = true.
Proof.
  intros Y. apply Z.leb_le in Y.
  unfold DateTime.is_timestamp, DateTime.strftime, DateTime.shape,
    DateTime.year_text.
  rewrite Y.
  cbn [DateTime.pad append DateTime.matches].
  rewrite !digit_is_digit by apply mod10_digit.
  reflexivity.
Qed.

(** On a [datetime] of these years the six numbers written are its six
    fields. *)
Lemma strftime_fields (d : datetime) :
  DateTime.valid d ->
  1000 <= year d ->
  DateTime.fields (DateTime.strftime d)
  = [year d; month d; day d; hour d; minute d; second d].
Proof.
  intros (Hy & Hm & Hd & Hh & Hmi & Hs & _) Y.
  pose proof Y as Y'. apply Z.leb_le in Y'.
  unfold DateTime.fields, DateTime.strftime, DateTime.year_text.
  rewrite Y'.
  cbn [DateTime.pad append map substring DateTime.number_from].
  rewrite !digit_value_digit by apply mod10_digit.
  repeat f_equal; Z.to_euclidean_division_equations; lia.
Qed.

(** Before the year 1000 the year is written short. *)
Example strftime_year_999 :
  DateTime.strftime {| year := 999; month := 1; day := 2; hour := 3;
                       minute := 4; second := 5; microsecond := 0 |}
  = "999-01-02 03:04:05".
Proof. reflexivity. Qed.

Lemma round_half_even_nonneg (x : Q) :
  (0 <= x)%Q -> 0 <= round_half_even x.
Proof.
  intros H. unfold round_half_even.
  assert (F : 0 <= Qfloor x).
  { change 0 with (Qfloor 0). apply Qfloor_resp_le. exact H. }
  destruct (Qcompare _ _); [ destruct (Z.even _) | | ]; lia.
Qed.

(** Rounding keeps a duration that is not negative from becoming negative. *)
Lemma round3_nonneg (x : Q) : (0 <= x)%Q -> (0 <= round3 x)%Q.
Proof.
  intros H. unfold round3, Qdiv.
  apply Qmult_le_0_compat.
  - change 0%Q with (inject_Z 0). rewrite <- Zle_Qle.
    apply round_half_even_nonneg.
    apply Qmult_le_0_compat; [ exact H | discriminate ].
  - apply Qinv_le_0_compat. discriminate.
Qed.

End DateFacts.

(** ** The fallback responder *)

Section Fallback.

Variable now : datetime.
Variable prompt : string.

Let reply : string := _create_fallback_response now prompt.

Lemma fallback_greeting : greeting_trigger prompt -> reply = greeting_reply.
Proof.
  intros H. apply greeting_test in H.
  unfold reply, _create_fallback_response. rewrite H. reflexivity.
Qed.

Lemma fallback_identity :
  ~ greeting_trigger prompt -> identity_trigger prompt -> reply = identity_reply.
Proof.
  intros G H. rewrite <- greeting_test in G. apply not_true_is_false in G.
  apply identity_test in H.
  unfold reply, _create_fallback_response. rewrite G, H. reflexivity.
Qed.

Lemma fallback_capability :
  ~ greeting_trigger prompt -> ~ identity_trigger prompt ->
  capability_trigger prompt -> reply = capability_reply.
Proof.
  intros G I H. rewrite <- greeting_test in G. apply not_true_is_false in G.
  rewrite <- identity_test in I. apply not_true_is_false in I.
  apply capability_test in H.
  unfold reply, _create_fallback_response. rewrite G, I, H. reflexivity.
Qed.

Lemma fallback_time :
  ~ greeting_trigger prompt -> ~ identity_trigger prompt ->
  ~ capability_trigger prompt -> occurs_ci "time" prompt ->
  reply = time_reply now.
Proof.
  intros G I C H. rewrite <- greeting_test in G. apply not_true_is_false in G.
  rewrite <- identity_test in I. apply not_true_is_false in I.
  rewrite <- capability_test in C. apply not_true_is_false in C.
  apply contains_lower in H.
  unfold reply, _create_fallback_response. rewrite G, I, C, H. reflexivity.
Qed.

Lemma fallback_generic :
  ~ greeting_trigger prompt -> ~ identity_trigger prompt ->
  ~ capability_trigger prompt -> ~ occurs_ci "time" prompt ->
  reply = generic_reply prompt.
Proof.
  intros G I C H. rewrite <- greeting_test in G. apply not_true_is_false in G.
  rewrite <- identity_test in I. apply not_true_is_false in I.
  rewrite <- capability_test in C. apply not_true_is_false in C.
  rewrite <- contains_lower in H. apply not_true_is_false in H.
  unfold reply, _create_fallback_response. rewrite G, I, C, H. reflexivity.
Qed.

End Fallback.

Example fallback_hello_there :
  _create_fallback_response noon "Hello there" = greeting_reply.
Proof. reflexivity. Qed.

Example fallback_what_time :
  _create_fallback_response noon "What time is it?"
  = "It's currently 2024-03-09 12:00:05.".
Proof. reflexivity. Qed.

Example fallback_greeting_before_time :
  _create_fallback_response noon "Hey, do you have the TIME?" = greeting_reply.
Proof. reflexivity. Qed.

Example fallback_tell_me_a_joke :
  _create_fallback_response noon "Tell me a joke"
  = "I'm your offline AI (llama2). You said: 'Tell me a joke...' - I'm handling this locally for privacy.".
Proof. reflexivity. Qed.

(** C5: the rules of the fallback responder are tried in the order greeting,
    identity, capability, time, generic, and the first rule that matches
    gives the reply.  A rule matches when the prompt mentions one of its
    triggers, letter case being ignored: the trigger is spelt somewhere in
    the prompt in small letters, capitals or a mix.  A prompt that mentions
    a greeting gets the greeting reply also when it mentions "time"; a
    prompt that only rule 4 matches gets the sentence with the local time,
    written as YYYY-MM-DD HH:MM:SS from the year 1000 on, the six numbers
    being those of the time read. *)
Theorem fallback_first_match_wins (now : datetime) (prompt : string) :
  let reply := _create_fallback_response now prompt in
  (greets prompt -> reply = greeting_reply) /\
  (~ greets prompt -> asks_who prompt -> reply = identity_reply) /\
  (~ greets prompt -> ~ asks_who prompt -> asks_help prompt ->
   reply = capability_reply) /\
  (~ greets prompt -> ~ asks_who prompt -> ~ asks_help prompt ->
   mentions "time" prompt ->
   reply = "It's currently " ++ DateTime.strftime now ++ "." /\
   ((1000 <= year now)%Z ->
    DateTime.is_timestamp (DateTime.strftime now) = true) /\
   (DateTime.valid now -> (1000 <= year now)%Z ->
    DateTime.fields (DateTime.strftime now)
    = [year now; month now; day now; hour now; minute now; second now])) /\
  (~ greets prompt -> ~ asks_who prompt -> ~ asks_help prompt ->
   ~ mentions "time" prompt ->
   reply = generic_reply prompt) /\
  (greets prompt -> mentions "time" prompt -> reply = greeting_reply).
Proof.
  intros reply. unfold reply.
  rewrite greets_trigger, asks_who_trigger, asks_help_trigger,
    <- (occurs_mentions "time" prompt eq_refl).
  repeat split.
  - apply fallback_greeting.
  - apply fallback_identity.
  - apply fallback_capability.
  - apply fallback_time; assumption.
  - apply strftime_shape.
  - apply strftime_fields.
  - apply fallback_generic.
  - intros G _. apply fallback_greeting, G.
Qed.

Lemma fallback_first_match_wins_witness :
  _create_fallback_response noon "Hey, do you have the TIME?" = greeting_reply /\
  _create_fallback_response noon "What TIME is it?"
  = "It's currently 2024-03-09 12:00:05." /\
  DateTime.is_timestamp (DateTime.strftime noon) = true.
Proof.
  pose proof (fallback_first_match_wins noon "Hey, do you have the TIME?") as H.
  pose proof (fallback_first_match_wins noon "What TIME is it?") as T.
  cbv zeta in H, T.
  destruct H as [_ [_ [_ [_ [_ H]]]]]. destruct T as [_ [_ [_ [T _]]]].
  split.
  - apply H.
    + right; right. exists EmptyString, "Hey", ", do you have the TIME?".
      split; [ reflexivity | ].
      cbn. repeat split; try (left; reflexivity).
      right. split; cbn; lia.
    + exists "Hey, do you have the ", "TIME", "?".
      split; [ reflexivity | ].
      cbn. repeat split; right; split; cbn; lia.
  - assert (N : forall trigger, all_plain trigger = true ->
                PyStr.contains trigger (PyStr.lower "What TIME is it?") = false ->
                ~ mentions trigger "What TIME is it?").
    { intros trigger P F M. apply (mentions_test trigger _ P) in M. congruence. }
    destruct T as [R [S _]].
    + intros [G | [G | G]]; revert G; apply N; reflexivity.
    + intros [G | G]; revert G; apply N; reflexivity.
    + intros [G | G]; revert G; apply N; reflexivity.
    + apply (mentions_test "time" _ eq_refl). reflexivity.
    + split; [ exact R | ]. apply S. cbn. lia.
Defined.

(** C6, as the code has it: the fallback responder changes nothing, and its
    reply depends on the prompt and, for the prompts that reach rule 4, on
    the local time read.  Two calls with the same prompt give the same reply
    when they read the same second, or when a rule before rule 4 matches the
    prompt, or when the prompt does not contain "time". *)
Theorem fallback_same_reply (prompt : string) (now1 now2 : datetime) :
  DateTime.strftime now1 = DateTime.strftime now2 \/
  greeting_trigger prompt \/ identity_trigger prompt \/
  capability_trigger prompt \/ ~ occurs_ci "time" prompt ->
  _create_fallback_response now1 prompt = _create_fallback_response now2 prompt.
Proof.
  intros H. unfold _create_fallback_response.
  destruct (PyStr.any_in ["hello"; "hi"; "hey"] _) eqn:G; [ reflexivity | ].
  destruct (PyStr.any_in ["who"; "what are you"] _) eqn:I; [ reflexivity | ].
  destruct (PyStr.any_in ["help"; "what can you do"] _) eqn:C; [ reflexivity | ].
  destruct (PyStr.contains "time" _) eqn:T; [ | reflexivity ].
  destruct H as [E | [H | [H | [H | H]]]].
  - rewrite E. reflexivity.
  - apply greeting_test in H. congruence.
  - apply identity_test in H. congruence.
  - apply capability_test in H. congruence.
  - apply contains_lower in T. contradiction.
Qed.

Lemma fallback_same_reply_witness :
  (DateTime.strftime noon = DateTime.strftime midnight \/
   greeting_trigger "Hello there" \/ identity_trigger "Hello there" \/
   capability_trigger "Hello there" \/ ~ occurs_ci "time" "Hello there") /\
  _create_fallback_response noon "Hello there"
  = _create_fallback_response midnight "Hello there".
Proof.
  assert (G : greeting_trigger "Hello there").
  { left. exists EmptyString, "Hello", " there". split; reflexivity. }
  split; [ right; left; exact G | ].
  apply (fallback_same_reply "Hello there" noon midnight).
  right; left; exact G.
Defined.

(** C6 as stated fails: the same prompt, asked at noon and at midnight, gets
    two different replies. *)
Lemma fallback_not_deterministic :
  _create_fallback_response noon "What time is it?"
  <> _create_fallback_response midnight "What time is it?".
Proof. vm_compute. discriminate. Qed.

(** ** One call of [generate_response] *)

Section OneCall.

Variable env : Env.
Variable user_input : string.
Variable model : json.

Let attempt : outcome Response :=
  requests_post env (request_data user_input model).

Lemma backend_fails_text : backend_fails attempt -> exists err, backend_failure attempt err.
Proof.
  destruct attempt as [r | e]; cbn.
  - intros H. eexists. apply failure_status, H.
  - intros _. destruct (exn_kind e) eqn:K; eexists.
    + apply failure_refused, K.
    + apply failure_timeout, K.
    + apply failure_other, K.
Qed.

Lemma backend_reply_failure (err : string) :
  backend_failure attempt err ->
  backend_reply env user_input model = (JNull, Some err).
Proof.
  unfold backend_reply, _query_ollama, try_except, bind, post. cbn [fst].
  fold attempt. intros H. inversion H as [e K E | e K E | e K E | r K E].
  - rewrite K. reflexivity.
  - rewrite K. reflexivity.
  - rewrite K. reflexivity.
  - apply Z.eqb_neq in K. rewrite K. reflexivity.
Qed.

Lemma backend_reply_no_text (r : Response) (items : list (string * json)) :
  attempt = Return r ->
  status_code r = 200%Z ->
  response_json r = Return (JObj items) ->
  PyVal.lookup "response" items = None ->
  backend_reply env user_input model = (JStr "No response generated", None).
Proof.
  unfold backend_reply, _query_ollama, try_except, bind, post, json_of.
  cbn [fst]. fold attempt. intros -> -> -> H. cbn. rewrite H. reflexivity.
Qed.

Lemma settled_fallback (err : string) :
  backend_failure attempt err ->
  settled env user_input model
  = (JStr (_create_fallback_response (datetime_now env) user_input),
     JStr "fallback-response", Some err).
Proof.
  intros H. unfold settled. rewrite (backend_reply_failure err H). reflexivity.
Qed.

(** The call counts itself first, then posts, then reads the clock again,
    then writes the log. *)
Lemma call_history (w : World) :
  history (snd (generate_response env user_input model w))
  = (history w
     ++ EvTime (time_start env)
     :: EvCount (total_requests w + 1)
     :: EvPost OLLAMA_API_URL (request_data user_input model) 30
     :: EvTime (time_end env)
     :: EvWrite (entry_of env user_input model (total_requests w + 1))
          (write_ok env)
     :: map EvPrint (diagnostic env))%list.
Proof. rewrite generate_response_run. reflexivity. Qed.

End OneCall.

(** The fate of the log write has no part in the result. *)
Lemma result_of_with_file_write (env : Env) (failure : option exn)
    (user_input : string) (model : json) (id : Z) :
  result_of (with_file_write env failure) user_input model id
  = result_of env user_input model id.
Proof. reflexivity. Qed.

(** C1: when the backend attempt fails (the request raises, or the status is
    not 200), [generate_response] returns normally; the result names the
    model "fallback-response" and carries the fallback responder's reply to
    the prompt; the error text of the failure is in the log entry and
    nowhere in the result. *)
Theorem generate_falls_back_on_backend_failure
    (env : Env) (user_input : string) (model : json) (w : World) :
  backend_fails (requests_post env (request_data user_input model)) ->
  exists err,
    backend_failure (requests_post env (request_data user_input model)) err /\
    generate_response env user_input model w
    = (Return
         {| res_response :=
              JStr (_create_fallback_response (datetime_now env) user_input);
            res_model := JStr "fallback-response";
            res_time_taken_seconds := round3 (time_end env - time_start env);
            res_offline := true;
            res_request_id := total_requests w + 1 |},
       after_call env user_input model w) /\
    entry_of env user_input model (total_requests w + 1)
    = {| log_timestamp := DateTime.isoformat (datetime_utcnow env);
         log_user_input := user_input;
         log_ai_response :=
           JStr (_create_fallback_response (datetime_now env) user_input);
         log_model := JStr "fallback-response";
         log_time_taken_seconds := round3 (time_end env - time_start env);
         log_error := Some err;
         log_request_id := total_requests w + 1 |}.
Proof.
  intros F. destruct (backend_fails_text env user_input model F) as [err H].
  exists err. split; [ exact H | ].
  rewrite generate_response_run.
  unfold result_of, entry_of, settled_response, settled_model, settled_error.
  rewrite (settled_fallback env user_input model err H).
  split; reflexivity.
Qed.

Lemma generate_falls_back_on_backend_failure_witness :
  backend_fails (requests_post env_offline (request_data "Tell me a joke" (JStr "llama2"))) /\
  fst (generate_response env_offline "Tell me a joke" (JStr "llama2") init_world)
  = Return
      {| res_response :=
           JStr "I'm your offline AI (llama2). You said: 'Tell me a joke...' - I'm handling this locally for privacy.";
         res_model := JStr "fallback-response";
         res_time_taken_seconds := round3 (1 # 4);
         res_offline := true;
         res_request_id := 1 |}.
Proof.
  split; [ exact I | ].
  destruct (generate_falls_back_on_backend_failure env_offline "Tell me a joke"
              (JStr "llama2") init_world I) as [err [_ [E _]]].
  rewrite E. reflexivity.
Defined.

(** The error text the log keeps in that scenario. *)
Example offline_log_entry :
  log_file (snd (generate_response env_offline "Tell me a joke"
                   (JStr "llama2") init_world))
  = [ {| log_timestamp := "2024-03-09T12:00:05";
         log_user_input := "Tell me a joke";
         log_ai_response :=
           JStr "I'm your offline AI (llama2). You said: 'Tell me a joke...' - I'm handling this locally for privacy.";
         log_model := JStr "fallback-response";
         log_time_taken_seconds := round3 (1 # 4);
         log_error := Some "Ollama isn't running - please start it!";
         log_request_id := 1 |} ].
Proof. reflexivity. Qed.

(** C8: a reply with status 200 whose body is an object without the key
    "response" counts as a success: the response is the text "No response
    generated", the model is the requested one, and the log entry has no
    error. *)
Theorem generate_without_text_is_success
    (env : Env) (user_input : string) (model : json) (w : World)
    (r : Response) (items : list (string * json)) :
  requests_post env (request_data user_input model) = Return r ->
  status_code r = 200%Z ->
  response_json r = Return (JObj items) ->
  PyVal.lookup "response" items = None ->
  generate_response env user_input model w
  = (Return
       {| res_response := JStr "No response generated";
          res_model := model;
          res_time_taken_seconds := round3 (time_end env - time_start env);
          res_offline := true;
          res_request_id := total_requests w + 1 |},
     after_call env user_input model w) /\
  entry_of env user_input model (total_requests w + 1)
  = {| log_timestamp := DateTime.isoformat (datetime_utcnow env);
       log_user_input := user_input;
       log_ai_response := JStr "No response generated";
       log_model := model;
       log_time_taken_seconds := round3 (time_end env - time_start env);
       log_error := None;
       log_request_id := total_requests w + 1 |}.
Proof.
  intros A S J L. rewrite generate_response_run.
  unfold result_of, entry_of, settled_response, settled_model, settled_error,
    settled.
  rewrite (backend_reply_no_text env user_input model r items A S J L).
  split; reflexivity.
Qed.

Lemma generate_without_text_is_success_witness :
  fst (generate_response env_no_text "Tell me a joke" (JStr "mistral") init_world)
  = Return
      {| res_response := JStr "No response generated";
         res_model := JStr "mistral";
         res_time_taken_seconds := round3 (101 - 100);
         res_offline := true;
         res_request_id := 1 |}.
Proof.
  destruct (generate_without_text_is_success env_no_text "Tell me a joke"
              (JStr "mistral") init_world
              {| status_code := 200;
                 response_json := Return (JObj [("done", JBool true)]) |}
              [("done", JBool true)]
              eq_refl eq_refl eq_refl eq_refl) as [E _].
  rewrite E. reflexivity.
Defined.

(** C7: a failure of the log write does not reach the caller.  The call
    returns the very result it returns when the write goes through; the
    failure leaves one diagnostic line on the standard output and nothing in
    the log. *)
Theorem log_failure_is_swallowed
    (env : Env) (x : exn) (user_input : string) (model : json) (w : World) :
  file_write env = Some x ->
  exists r w',
    generate_response env user_input model w = (Return r, w') /\
    fst (generate_response (with_file_write env None) user_input model w)
    = Return r /\
    stdout w' = (stdout w ++ [("Could not save log: " ++ exn_str x)%string])%list /\
    log_file w' = log_file w /\
    total_requests w' = (total_requests w + 1)%Z.
Proof.
  intros F. rewrite !generate_response_run.
  eexists; eexists. split; [ reflexivity | ].
  cbn [fst]. rewrite result_of_with_file_write.
  unfold after_call, diagnostic, written.
  cbn [stdout log_file total_requests]. rewrite F, app_nil_r.
  repeat split; reflexivity.
Qed.

Lemma log_failure_is_swallowed_witness :
  file_write (with_file_write env_offline (Some disk_full)) = Some disk_full /\
  fst (generate_response (with_file_write env_offline (Some disk_full))
         "Tell me a joke" (JStr "llama2") init_world)
  = fst (generate_response env_offline "Tell me a joke" (JStr "llama2")
           init_world).
Proof.
  split; [ reflexivity | ].
  destruct (log_failure_is_swallowed (with_file_write env_offline (Some disk_full))
              disk_full "Tell me a joke" (JStr "llama2") init_world eq_refl)
    as [r [w' [E [E' _]]]].
  rewrite E. cbn [fst]. rewrite <- E'. reflexivity.
Defined.

(** ** Successive calls *)

Section Calls.

Local Open Scope Z_scope.

Lemma run_calls_cons (c : Call) (rest : list Call) (w : World) :
  run_calls (c :: rest) w
  = (Return (result_of (call_env c) (call_prompt c) (call_model c)
               (total_requests w + 1))
     :: fst (run_calls rest
               (after_call (call_env c) (call_prompt c) (call_model c) w)),
     snd (run_calls rest
            (after_call (call_env c) (call_prompt c) (call_model c) w))).
Proof.
  cbn [run_calls]. rewrite generate_response_run.
  destruct (run_calls rest _). reflexivity.
Qed.

Lemma run_calls_results (calls : list Call) (w : World) :
  fst (run_calls calls w)
  = map Return (results_from (total_requests w + 1) calls).
Proof.
  revert w. induction calls as [| c rest IH]; intros w.
  - reflexivity.
  - rewrite run_calls_cons. cbn [fst results_from map]. rewrite IH. reflexivity.
Qed.

Lemma run_calls_counter (calls : list Call) (w : World) :
  total_requests (snd (run_calls calls w))
  = total_requests w + Z.of_nat (List.length calls).
Proof.
  revert w. induction calls as [| c rest IH]; intros w.
  - cbn. lia.
  - rewrite run_calls_cons. cbn [snd List.length]. rewrite IH.
    cbn [after_call total_requests]. lia.
Qed.

Lemma run_calls_log (calls : list Call) (w : World) :
  log_file (snd (run_calls calls w))
  = (log_file w ++ entries_from (total_requests w + 1) calls)%list.
Proof.
  revert w. induction calls as [| c rest IH]; intros w.
  - cbn. rewrite app_nil_r. reflexivity.
  - rewrite run_calls_cons. cbn [snd entries_from]. rewrite IH.
    cbn [after_call total_requests log_file]. rewrite <- app_assoc. reflexivity.
Qed.

Lemma results_from_ids (first : Z) (calls : list Call) :
  map res_request_id (results_from first calls)
  = count_from first (List.length calls).
Proof.
  revert first. induction calls as [| c rest IH]; intros first.
  - reflexivity.
  - cbn [results_from map List.length count_from]. rewrite IH. reflexivity.
Qed.

Lemma results_from_times (first : Z) (calls : list Call) :
  Forall (fun c => (time_start (call_env c) <= time_end (call_env c))%Q) calls ->
  Forall (fun r => (0 <= res_time_taken_seconds r)%Q) (results_from first calls).
Proof.
  intros H. revert first.
  induction H as [| c rest Hc _ IH]; intros first; constructor.
  - cbn. apply round3_nonneg. unfold elapsed.
    apply (proj1 (Qle_minus_iff _ _)). exact Hc.
  - apply IH.
Qed.

Lemma increasing_cons (a : Z) (l : list Z) :
  (forall x, In x l -> a < x) -> increasing l -> increasing (a :: l).
Proof.
  intros H I. destruct l as [| b l]; [ exact Logic.I | ].
  split; [ apply H; left; reflexivity | exact I ].
Qed.

Lemma count_from_lower (first : Z) (count : nat) (x : Z) :
  In x (count_from first count) -> first <= x < first + Z.of_nat count.
Proof.
  revert first. induction count as [| k IH]; intros first; cbn [count_from].
  - intros [].
  - intros [<- | H]; [ lia | ]. apply IH in H. lia.
Qed.

Lemma count_from_increasing (first : Z) (count : nat) :
  increasing (count_from first count).
Proof.
  revert first. induction count as [| k IH]; intros first.
  - exact I.
  - cbn [count_from]. apply increasing_cons; [ | apply IH ].
    intros x H. apply count_from_lower in H. lia.
Qed.





End Calls.

(** The time taken by each call is the difference of its two readings of
    the wall clock, rounded. *)
Lemma results_from_elapsed (first : Z) (calls : list Call) :
  map res_time_taken_seconds (results_from first calls)
  = map (fun c => round3 (time_end (call_env c) - time_start (call_env c)))
      calls.
Proof.
  revert first. induction calls as [| c rest IH]; intros first.
  - reflexivity.
  - cbn [results_from map]. rewrite IH. reflexivity.
Qed.

(** C2, as the code has it: along any run of calls on one instance, every
    call returns; the ids returned are the successive values of the counter,
    each greater than the one before.  The counter is 0 in a fresh process,
    and a call moves it once, by one, before it posts to the backend.  The
    time taken is the difference of two readings of the wall clock, rounded
    to three decimals: it is not negative for the calls during which the
    clock does not go back. *)
Theorem request_ids_increase (calls : list Call) (w : World) :
  exists rs,
    fst (run_calls calls w) = map Return rs /\
    map res_request_id rs
    = count_from (total_requests w + 1) (List.length calls) /\
    increasing (map res_request_id rs) /\
    map res_time_taken_seconds rs
    = map (fun c => round3 (time_end (call_env c) - time_start (call_env c)))
        calls /\
    (forall c,
        In c calls ->
        (time_start (call_env c) <= time_end (call_env c))%Q ->
        (0 <= round3 (time_end (call_env c) - time_start (call_env c)))%Q) /\
    total_requests (snd (run_calls calls w))
    = (total_requests w + Z.of_nat (List.length calls))%Z /\
    total_requests init_world = 0%Z /\
    (forall env user_input model w0,
        exists tail,
          history (snd (generate_response env user_input model w0))
          = (history w0
             ++ EvTime (time_start env)
             :: EvCount (total_requests w0 + 1)
             :: EvPost OLLAMA_API_URL (request_data user_input model) 30
             :: tail)%list /\
          (forall n, ~ In (EvCount n) tail) /\
          total_requests (snd (generate_response env user_input model w0))
          = (total_requests w0 + 1)%Z).
Proof.
  exists (results_from (total_requests w + 1) calls).
  split; [ apply run_calls_results | ].
  split; [ apply results_from_ids | ].
  split; [ rewrite results_from_ids; apply count_from_increasing | ].
  split; [ apply results_from_elapsed | ].
  split.
  { intros c _ T. apply round3_nonneg.
    apply (proj1 (Qle_minus_iff _ _)). exact T. }
  split; [ apply run_calls_counter | ].
  split; [ reflexivity | ].
  intros env user_input model w0. eexists.
  split; [ apply call_history | ].
  split.
  - intros n [H | [H | H]]; try discriminate.
    apply in_map_iff in H. destruct H as [line [H _]]. discriminate.
  - rewrite generate_response_run. reflexivity.
Qed.

Lemma request_ids_increase_witness :
  exists rs,
    fst (run_calls [call_offline "Hi, who are you?";
                    call_offline "What is 2 + 2?";
                    call_offline "Tell me a joke"] init_world)
    = map Return rs /\
    map res_request_id rs = [1; 2; 3]%Z /\
    Forall (fun r => (0 <= res_time_taken_seconds r)%Q) rs.
Proof.
  destruct (request_ids_increase
              [call_offline "Hi, who are you?"; call_offline "What is 2 + 2?";
               call_offline "Tell me a joke"] init_world)
    as [rs [E [Ids [_ [Times [Pos _]]]]]].
  exists rs. split; [ exact E | ]. split; [ exact Ids | ].
  assert (P : forall c,
             In c [call_offline "Hi, who are you?"; call_offline "What is 2 + 2?";
                   call_offline "Tell me a joke"] ->
             (0 <= round3 (time_end (call_env c) - time_start (call_env c)))%Q).
  { intros c H. apply (Pos c H).
    destruct H as [<- | [<- | [<- | []]]]; cbn; discriminate. }
  clear - Times P. revert rs Times.
  induction [call_offline "Hi, who are you?"; call_offline "What is 2 + 2?";
             call_offline "Tell me a joke"] as [| c cs IH];
    intros rs Times; destruct rs as [| r rs]; try discriminate Times;
    constructor.
  - injection Times as T _. rewrite T. apply P. left. reflexivity.
  - injection Times as _ T. apply IH; [ | exact T ].
    intros c' H. apply P. right. exact H.
Defined.

(** C2 as stated fails: when the wall clock is set back during the call,
    the call returns a negative time. *)
Lemma time_taken_negative_when_clock_set_back :
  exists r w',
    generate_response env_clock_set_back "Tell me a joke" (JStr "llama2")
      init_world = (Return r, w') /\
    res_request_id r = 1%Z /\
    (res_time_taken_seconds r == - (62 # 1000))%Q /\
    ~ (0 <= res_time_taken_seconds r)%Q.
Proof.
  rewrite generate_response_run. eexists; eexists.
  split; [ reflexivity | ]. split; [ reflexivity | ].
  split; [ reflexivity | ].
  cbn. intros H. vm_compute in H. apply H. reflexivity.
Qed.




(** ** The [/generate] route *)

Section Route.

Variable env : Env.
Variable items : list (string * json).
Variable prompt : string.
Variable w : World.

Hypothesis has_prompt : PyVal.lookup "prompt" items = Some (JStr prompt).

(** The model the body asks for, or the default one. *)
Let model : json :=
  match PyVal.lookup "model" items with
  | Some m => m
  | None => JStr DEFAULT_AI_MODEL
  end.

(** With a text under "prompt", the route comes down to the test on the
    trimmed text. *)
Lemma generate_with_prompt :
  generate env (Return (JObj items)) w
  = if String.eqb (PyStr.strip prompt) EmptyString then
      (Return {| reply_body := error_body "Prompt cannot be empty";
                 reply_status := 400 |}, w)
    else
      (Return {| reply_body :=
                   jsonify (result_of env prompt model (total_requests w + 1));
                 reply_status := 200 |},
       after_call env prompt model w).
Proof.
  unfold generate, try_except, bind at 1 2 3 4, py_in, py_getitem, py_get, ret.
  assert (T : PyVal.truthy (JObj items) = true).
  { destruct items; [ discriminate has_prompt | reflexivity ]. }
  rewrite T, has_prompt. cbn [negb]. fold model.
  destruct (String.eqb (PyStr.strip prompt) EmptyString); [ reflexivity | ].
  unfold bind. rewrite generate_response_run. reflexivity.
Qed.

Lemma generate_blank : whitespace_only prompt ->
  generate env (Return (JObj items)) w
  = (Return {| reply_body := error_body "Prompt cannot be empty";
               reply_status := 400 |}, w).
Proof.
  intros B. apply strip_empty in B.
  rewrite generate_with_prompt, B. reflexivity.
Qed.

Lemma generate_accepted : PyStr.strip prompt <> EmptyString ->
  generate env (Return (JObj items)) w
  = (Return {| reply_body :=
                 jsonify (result_of env prompt model (total_requests w + 1));
               reply_status := 200 |},
     after_call env prompt model w).
Proof.
  intros N. apply String.eqb_neq in N.
  rewrite generate_with_prompt, N. reflexivity.
Qed.

End Route.

(** C4: a prompt that is empty or made of white space only is answered with
    status 400 and the message "Prompt cannot be empty"; the world is left as
    it was: [generate_response] does not run, the counter keeps its value, the
    log gains no entry, nothing is posted. *)
Theorem blank_prompt_is_rejected
    (env : Env) (items : list (string * json)) (prompt : string) (w : World) :
  PyVal.lookup "prompt" items = Some (JStr prompt) ->
  whitespace_only prompt ->
  exists w',
    generate env (Return (JObj items)) w
    = (Return {| reply_body := JObj [("error", JStr "Prompt cannot be empty")];
                 reply_status := 400 |}, w') /\
    w' = w /\
    total_requests w' = total_requests w /\
    log_file w' = log_file w /\
    history w' = history w.
Proof.
  intros P B. exists w. rewrite (generate_blank env items prompt w P B).
  repeat split; reflexivity.
Qed.

Lemma spaces_are_blank : whitespace_only "   ".
Proof. apply all_space_spec. reflexivity. Qed.

Lemma blank_prompt_is_rejected_witness :
  PyVal.lookup "prompt" [("prompt", JStr "   ")] = Some (JStr "   ") /\
  whitespace_only "   " /\
  generate env_offline (Return (JObj [("prompt", JStr "   ")])) init_world
  = (Return {| reply_body := JObj [("error", JStr "Prompt cannot be empty")];
               reply_status := 400 |}, init_world).
Proof.
  split; [ reflexivity | ].
  split; [ exact spaces_are_blank | ].
  destruct (blank_prompt_is_rejected env_offline [("prompt", JStr "   ")] "   "
              init_world eq_refl spaces_are_blank) as [w' [E [-> _]]].
  exact E.
Defined.

(** The empty prompt of the test script. *)
Example empty_prompt_rejected :
  generate env_offline (Return (JObj [("prompt", JStr EmptyString)])) init_world
  = (Return {| reply_body := JObj [("error", JStr "Prompt cannot be empty")];
               reply_status := 400 |}, init_world).
Proof. reflexivity. Qed.

(** The missing prompt of the test script: an empty object is falsy. *)
Example missing_prompt_rejected :
  generate env_offline (Return (JObj [])) init_world
  = (Return {| reply_body :=
                 JObj [("error", JStr "Please include a 'prompt' in your request")];
               reply_status := 400 |}, init_world).
Proof. reflexivity. Qed.

(** C10: a prompt that is not blank once trimmed goes on untrimmed: the body
    posted to the backend holds it as it came, the log entry keeps it as
    [user_input], and the fallback responder, when the backend fails, is
    given it too.  The trimmed text serves the test only. *)
Theorem prompt_is_passed_untrimmed
    (env : Env) (items : list (string * json)) (prompt : string) (w : World) :
  PyVal.lookup "prompt" items = Some (JStr prompt) ->
  PyStr.strip prompt <> EmptyString ->
  let model := match PyVal.lookup "model" items with
               | Some m => m
               | None => JStr DEFAULT_AI_MODEL
               end in
  exists result entry w',
    generate env (Return (JObj items)) w
    = (Return {| reply_body := jsonify result; reply_status := 200 |}, w') /\
    generate_response env prompt model w = (Return result, w') /\
    history w'
    = (history w
       ++ EvTime (time_start env)
       :: EvCount (total_requests w + 1)
       :: EvPost OLLAMA_API_URL
            (JObj [("model", model); ("prompt", JStr prompt);
                   ("stream", JBool false)]) 30
       :: EvTime (time_end env)
       :: EvWrite entry (write_ok env)
       :: map EvPrint (diagnostic env))%list /\
    log_user_input entry = prompt /\
    log_file w' = (log_file w ++ written env entry)%list /\
    (backend_fails (requests_post env (request_data prompt model)) ->
     res_response result
     = JStr (_create_fallback_response (datetime_now env) prompt)).
Proof.
  intros P N model.
  exists (result_of env prompt model (total_requests w + 1)),
         (entry_of env prompt model (total_requests w + 1)),
         (after_call env prompt model w).
  split; [ apply (generate_accepted env items prompt w P N) | ].
  split; [ apply generate_response_run | ].
  split; [ reflexivity | ].
  split; [ reflexivity | ].
  split; [ reflexivity | ].
  intros F. destruct (backend_fails_text env prompt model F) as [err H].
  unfold result_of, settled_response. cbn [res_response].
  rewrite (settled_fallback env prompt model err H). reflexivity.
Qed.

Lemma prompt_is_passed_untrimmed_witness :
  PyVal.lookup "prompt" [("prompt", JStr "  Tell me a joke  ")]
  = Some (JStr "  Tell me a joke  ") /\
  PyStr.strip "  Tell me a joke  " <> EmptyString /\
  exists result entry w',
    generate env_offline (Return (JObj [("prompt", JStr "  Tell me a joke  ")]))
      init_world
    = (Return {| reply_body := jsonify result; reply_status := 200 |}, w') /\
    log_user_input entry = "  Tell me a joke  " /\
    log_file w' = [entry].
Proof.
  assert (N : PyStr.strip "  Tell me a joke  " <> EmptyString).
  { vm_compute. discriminate. }
  split; [ reflexivity | ].
  split; [ exact N | ].
  destruct (prompt_is_passed_untrimmed env_offline
              [("prompt", JStr "  Tell me a joke  ")] "  Tell me a joke  "
              init_world eq_refl N)
    as [result [entry [w' [E [_ [_ [U [L _]]]]]]]].
  exists result, entry, w'. repeat split; assumption.
Defined.

(** The reply to that padded prompt echoes the leading blanks. *)
Example padded_prompt_reply :
  fst (generate env_offline (Return (JObj [("prompt", JStr "  Tell me a joke  ")]))
         init_world)
  = Return
      {| reply_body :=
           JObj [("response",
                  JStr "I'm your offline AI (llama2). You said: '  Tell me a joke  ...' - I'm handling this locally for privacy.");
                 ("model", JStr "fallback-response");
                 ("time_taken_seconds", JNum (round3 (1 # 4)));
                 ("offline", JBool true);
                 ("request_id", JNum (inject_Z 1))];
         reply_status := 200 |}.
Proof. reflexivity. Qed.

(** ** Overlapping calls *)

Section Overlap.

Import Threads.
Local Open Scope Z_scope.

(** Run without a pause, the turns of a call are [generate_response]. *)
Lemma turns_whole_call (c : Call) (w : World) :
  turns whole_call (Ready c) w
  = (Done (fst (generate_response (call_env c) (call_prompt c) (call_model c) w)),
     snd (generate_response (call_env c) (call_prompt c) (call_model c) w)).
Proof.
  rewrite generate_response_run. cbn [fst snd].
  unfold whole_call.
  cbn [turns step advance time_time get_total_requests set_total_requests].
  unfold advance at 1. rewrite _query_ollama_run.
  unfold result_of, after_call, events_of, entry_of, written, diagnostic,
    write_ok, settled_response, settled_model, settled_error, settled, elapsed.
  destruct (backend_reply (call_env c) (call_prompt c) (call_model c))
    as [response error].
  cbn [turns step advance time_time get_total_requests set_total_requests
       fst snd].
  destruct (PyVal.is_None response);
    cbn [turns step advance time_time get_total_requests set_total_requests
         fst snd];
    unfold append_log; destruct (file_write (call_env c));
    cbn [turns step advance time_time get_total_requests set_total_requests
         print fst snd];
    unfold emit; cbn [total_requests log_file stdout history map];
    rewrite ?app_nil_r, <- ?app_assoc; reflexivity.
Qed.

Lemma update_same (ts : list Thread) (i : nat) (t : Thread) :
  nth_error ts i = Some t -> update i t ts = ts.
Proof.
  revert i. induction ts as [| x ts IH]; intros i H.
  - destruct i; reflexivity.
  - destruct i as [| k]; cbn in *.
    + injection H as ->. reflexivity.
    + rewrite (IH k H). reflexivity.
Qed.

Lemma update_update (ts : list Thread) (i : nat) (t t' : Thread) :
  update i t' (update i t ts) = update i t' ts.
Proof.
  revert i. induction ts as [| x ts IH]; intros i.
  - destruct i; reflexivity.
  - destruct i as [| k]; cbn; [ | rewrite IH ]; reflexivity.
Qed.

Lemma nth_error_update (ts : list Thread) (i : nat) (t t' : Thread) :
  nth_error ts i = Some t -> nth_error (update i t' ts) i = Some t'.
Proof.
  revert i. induction ts as [| x ts IH]; intros i H.
  - destruct i; discriminate H.
  - destruct i as [| k]; cbn in *; [ reflexivity | apply IH, H ].
Qed.

(** Turns of one thread in a row. *)
Lemma run_repeat (k i : nat) (rest : list nat) (ts : list Thread) (t : Thread)
    (w : World) :
  nth_error ts i = Some t ->
  run (repeat i k ++ rest) ts w
  = run rest (update i (fst (turns k t w)) ts) (snd (turns k t w)).
Proof.
  revert ts t w. induction k as [| k IH]; intros ts t w H.
  - cbn. rewrite (update_same ts i t H). reflexivity.
  - cbn [repeat app run turns]. rewrite H.
    destruct (step t w) as [t' w'].
    rewrite (IH (update i t' ts) t' w' (nth_error_update ts i t t' H)).
    rewrite update_update. reflexivity.
Qed.

Lemma update_app (done : list Thread) (x t : Thread) (rest : list Thread) :
  update (List.length done) t (done ++ x :: rest) = (done ++ t :: rest)%list.
Proof. induction done as [| d done IH]; cbn; [ | rewrite IH ]; reflexivity. Qed.

Lemma nth_error_middle (done : list Thread) (x : Thread) (rest : list Thread) :
  nth_error (done ++ x :: rest) (List.length done) = Some x.
Proof. induction done as [| d done IH]; cbn; [ reflexivity | exact IH ]. Qed.

(** Under the schedule without overlap the threads do what [run_calls]
    does. *)
Lemma run_one_by_one (calls : list Call) (done : list Thread) (w : World) :
  run (one_by_one (List.length done) (List.length calls))
      (done ++ map Ready calls) w
  = ((done ++ map Done (fst (run_calls calls w)))%list,
     snd (run_calls calls w)).
Proof.
  revert done w. induction calls as [| c rest IH]; intros done w.
  - reflexivity.
  - cbn [List.length one_by_one map].
    rewrite (run_repeat whole_call (List.length done) _ _ (Ready c) w
               (nth_error_middle done (Ready c) (map Ready rest))).
    rewrite turns_whole_call. cbn [fst snd]. rewrite update_app.
    replace (S (List.length done)) with (List.length (done ++ [Done
      (fst (generate_response (call_env c) (call_prompt c) (call_model c) w))]))
      by (rewrite length_app; cbn; lia).
    replace (done ++ Done (fst (generate_response (call_env c) (call_prompt c)
                                  (call_model c) w)) :: map Ready rest)%list
      with ((done ++ [Done (fst (generate_response (call_env c) (call_prompt c)
                                   (call_model c) w))]) ++ map Ready rest)%list
      by (rewrite <- app_assoc; reflexivity).
    rewrite IH, <- app_assoc. cbn [run_calls].
    destruct (generate_response _ _ _ w) as [o w2]. cbn [fst snd].
    destruct (run_calls rest w2). reflexivity.
Qed.

Lemma returned_ids_done (rs : list GenerationResult) :
  returned_ids (map Done (map Return rs)) = map res_request_id rs.
Proof. induction rs as [| r rs IH]; cbn; [ | rewrite IH ]; reflexivity. Qed.

Lemma weight_bounds (t : Thread) : 0 <= weight t <= 1.
Proof. destruct t; cbn; lia. Qed.

Lemma counted_bounds (ts : list Thread) :
  0 <= counted ts <= Z.of_nat (List.length ts).
Proof.
  induction ts as [| t ts IH]; cbn [counted List.length]; [ lia | ].
  pose proof (weight_bounds t). lia.
Qed.

Lemma counted_update (ts : list Thread) (i : nat) (t t' : Thread) :
  nth_error ts i = Some t ->
  counted (update i t' ts) = counted ts - weight t + weight t'.
Proof.
  revert i. induction ts as [| x ts IH]; intros i H.
  - destruct i; discriminate H.
  - destruct i as [| k]; cbn in H.
    + injection H as ->. cbn [update counted]. lia.
    + cbn [update counted]. rewrite (IH k H). lia.
Qed.

Lemma counted_member (ts : list Thread) (i : nat) (t : Thread) :
  nth_error ts i = Some t -> weight t <= counted ts.
Proof.
  revert i. induction ts as [| x ts IH]; intros i H.
  - destruct i; discriminate H.
  - destruct i as [| k]; cbn in H; cbn [counted].
    + injection H as ->. pose proof (counted_bounds ts). lia.
    + specialize (IH k H). pose proof (weight_bounds x). lia.
Qed.

Lemma length_update (ts : list Thread) (i : nat) (t : Thread) :
  List.length (update i t ts) = List.length ts.
Proof.
  revert i. induction ts as [| x ts IH]; intros i.
  - destruct i; reflexivity.
  - destruct i; cbn; [ | rewrite IH ]; reflexivity.
Qed.

Lemma thread_ok_more (base k k' : Z) (t : Thread) :
  k <= k' -> thread_ok base k t -> thread_ok base k' t.
Proof.
  intros L. destruct t as [| | | | | | | | | [r | e]]; cbn; try tauto; lia.
Qed.

Lemma Forall_update (P : Thread -> Prop) (ts : list Thread) (i : nat)
    (t' : Thread) :
  Forall P ts -> P t' -> Forall P (update i t' ts).
Proof.
  intros F Pt. revert i. induction F as [| x ts Px F IH]; intros i.
  - destruct i; constructor.
  - destruct i as [| k]; cbn [update]; constructor; auto.
Qed.

Lemma returned_ids_ok (base k : Z) (ts : list Thread) (id : Z) :
  Forall (thread_ok base k) ts -> In id (returned_ids ts) ->
  base + 1 <= id <= base + k.
Proof.
  intros F. induction F as [| t ts Pt F IH]; intros H; [ destruct H | ].
  destruct t as [| | | | | | | | | [r | e]]; cbn [returned_ids] in H; auto.
  destruct H as [<- | H]; [ exact Pt | auto ].
Qed.

(** What a turn needs to keep the counter and the values held consistent. *)
Lemma consistent_update (base : Z) (ts : list Thread) (w w' : World) (i : nat)
    (t t' : Thread) :
  nth_error ts i = Some t ->
  consistent base ts w ->
  weight t <= weight t' ->
  base <= total_requests w' <= base + (counted ts - weight t + weight t') ->
  (1 <= counted ts - weight t + weight t' -> base + 1 <= total_requests w') ->
  thread_ok base (counted ts - weight t + weight t') t' ->
  consistent base (update i t' ts) w'.
Proof.
  intros N [_ [_ F]] W B A T. unfold consistent.
  rewrite (counted_update ts i t t' N).
  split; [ exact B | ]. split; [ exact A | ].
  apply Forall_update; [ | exact T ].
  apply Forall_impl with (P := thread_ok base (counted ts)); [ | exact F ].
  intros t0. apply thread_ok_more. lia.
Qed.

(** A turn of any thread keeps them consistent. *)
Lemma step_consistent (base : Z) (ts : list Thread) (w : World) (i : nat)
    (t : Thread) :
  nth_error ts i = Some t ->
  consistent base ts w ->
  consistent base (update i (fst (step t w)) ts) (snd (step t w)).
Proof.
  intros N C. pose proof C as [B [A F]].
  pose proof (counted_member ts i t N) as M.
  destruct t as [c | c s | c s n | c s | c s [response error]
                 | c response model_used error tt
                 | c response model_used tt entry
                 | c response model_used tt e
                 | c response model_used tt | o];
    cbn [step advance time_time get_total_requests set_total_requests print
         fst snd].
  - apply (consistent_update base ts w _ i _ _ N C); cbn; try lia; exact I.
  - apply (consistent_update base ts w _ i _ _ N C); cbn; lia.
  - assert (Hn : base <= n <= base + counted ts).
    { rewrite Forall_forall in F. apply (F _ (nth_error_In _ _ N)). }
    apply (consistent_update base ts w _ i _ _ N C); cbn; try lia; exact I.
  - unfold advance. rewrite _query_ollama_run. cbn [fst snd].
    apply (consistent_update base ts w _ i _ _ N C); cbn in *; try lia; exact I.
  - destruct (PyVal.is_None response);
      apply (consistent_update base ts w _ i _ _ N C); cbn in *; try lia;
      exact I.
  - apply (consistent_update base ts w _ i _ _ N C); cbn in *; try lia; exact I.
  - unfold append_log. destruct (file_write (call_env c));
      apply (consistent_update base ts w _ i _ _ N C); cbn in *; try lia;
      exact I.
  - apply (consistent_update base ts w _ i _ _ N C); cbn in *; try lia; exact I.
  - apply (consistent_update base ts w _ i _ _ N C); cbn in *; lia.
  - rewrite (update_same ts i _ N). exact C.
Qed.

Lemma run_consistent (base : Z) (schedule : list nat) (ts : list Thread)
    (w : World) :
  consistent base ts w ->
  consistent base (fst (run schedule ts w)) (snd (run schedule ts w)) /\
  List.length (fst (run schedule ts w)) = List.length ts.
Proof.
  revert ts w. induction schedule as [| i rest IH]; intros ts w C.
  - split; [ exact C | reflexivity ].
  - cbn [run]. destruct (nth_error ts i) as [t |] eqn:N; [ | apply IH, C ].
    pose proof (step_consistent base ts w i t N C) as C'.
    destruct (step t w) as [t' w']. cbn [fst snd] in C'.
    destruct (IH _ _ C') as [C2 L]. split; [ exact C2 | ].
    rewrite L. apply length_update.
Qed.

Lemma counted_ready (calls : list Call) : counted (map Ready calls) = 0.
Proof. induction calls as [| c rest IH]; cbn; [ | rewrite IH ]; reflexivity. Qed.

Lemma ready_consistent (calls : list Call) (w : World) :
  consistent (total_requests w) (map Ready calls) w.
Proof.
  unfold consistent. rewrite counted_ready.
  split; [ lia | ]. split; [ lia | ].
  apply Forall_forall. intros t H. apply in_map_iff in H.
  destruct H as [c [<- _]]. exact I.
Qed.

(** The id a call returns is read from the counter in its last turn. *)
Lemma step_returns (t : Thread) (w w' : World) (r : GenerationResult) :
  (forall o, t <> Done o) ->
  step t w = (Done (Return r), w') ->
  res_request_id r = total_requests w /\ w' = w.
Proof.
  intros ND H.
  destruct t as [c | c s | c s n | c s | c s [response error]
                 | c response model_used error tt
                 | c response model_used tt entry
                 | c response model_used tt e
                 | c response model_used tt | o];
    cbn [step advance time_time get_total_requests set_total_requests print]
      in H; try discriminate H.
  - unfold advance in H. rewrite _query_ollama_run in H. discriminate H.
  - destruct (PyVal.is_None response); discriminate H.
  - unfold append_log in H. destruct (file_write (call_env c)); discriminate H.
  - injection H as <- <-. split; reflexivity.
  - contradiction (ND o). reflexivity.
Qed.

End Overlap.

(** C9, as the code has it: the increment of the counter is a load and a
    store, the counter is read again for the id only when the call returns,
    after the backend call and the log write, and nothing locks it.  Calls
    that do not overlap, N of them in a fresh process, receive the ids 1 to
    N in order, without duplicate or gap.  Calls that overlap in any way
    receive each the value the counter has when the call returns: an id
    between 1 and N, which several calls may share. *)
Theorem request_ids_of_threads (calls : list Call) :
  Threads.returned_ids
    (fst (Threads.run (Threads.one_by_one 0 (List.length calls))
            (map Threads.Ready calls) init_world))
  = count_from 1 (List.length calls) /\
  (forall schedule id,
      In id (Threads.returned_ids
               (fst (Threads.run schedule (map Threads.Ready calls) init_world))) ->
      (1 <= id <= Z.of_nat (List.length calls))%Z) /\
  (forall t w r w',
      (forall o, t <> Threads.Done o) ->
      Threads.step t w = (Threads.Done (Return r), w') ->
      res_request_id r = total_requests w /\ w' = w).
Proof.
  split; [ | split ].
  - pose proof (run_one_by_one calls [] init_world) as R.
    cbn [List.length app] in R. rewrite R. cbn [fst].
    rewrite run_calls_results, returned_ids_done, results_from_ids.
    reflexivity.
  - intros schedule id H.
    destruct (run_consistent 0 schedule (map Threads.Ready calls) init_world
                (ready_consistent calls init_world)) as [[_ [_ F]] L].
    pose proof (returned_ids_ok 0 _ _ id F H) as B.
    pose proof (counted_bounds
                  (fst (Threads.run schedule (map Threads.Ready calls) init_world)))
      as K.
    rewrite L, length_map in K. lia.
  - intros t w r w'. apply step_returns.
Qed.

(** C9 as stated fails: two calls, the second entered while the first waits
    for the backend, both return the id 2, and no call returns the id 1. *)
Lemma overlapping_calls_share_an_id :
  let ts := fst (Threads.run
                   [0; 0; 0; 1; 1; 1; 0; 0; 0; 0; 0; 1; 1; 1; 1; 1]%nat
                   [Threads.Ready (call_offline "Hi, who are you?");
                    Threads.Ready (call_offline "Tell me a joke")]
                   init_world) in
  Threads.all_done ts = true /\
  Threads.returned_ids ts = [2; 2]%Z /\
  ~ NoDup (Threads.returned_ids ts).
Proof.
  cbv zeta.
  assert (E : Threads.returned_ids
                (fst (Threads.run
                        [0; 0; 0; 1; 1; 1; 0; 0; 0; 0; 0; 1; 1; 1; 1; 1]%nat
                        [Threads.Ready (call_offline "Hi, who are you?");
                         Threads.Ready (call_offline "Tell me a joke")]
                        init_world)) = [2; 2]%Z) by reflexivity.
  split; [ reflexivity | ]. split; [ exact E | ].
  rewrite E. intros D. inversion D as [| x l N _]. apply N. left. reflexivity.
Qed.

(** An increment can be lost: both calls load 0 before either stores, both
    return the id 1, and the counter ends at 1 after two calls. *)
Example overlapping_increments_lose_one :
  let run := Threads.run
               [0; 0; 1; 1; 0; 1; 0; 0; 0; 0; 0; 1; 1; 1; 1; 1]%nat
               [Threads.Ready (call_offline "Hi, who are you?");
                Threads.Ready (call_offline "Tell me a joke")]
               init_world in
  Threads.all_done (fst run) = true /\
  Threads.returned_ids (fst run) = [1; 1]%Z /\
  total_requests (snd run) = 1%Z.
Proof. repeat split; reflexivity. Qed.

(** The id in the log can differ from the id returned: the first call reads
    the counter for its log entry, the second call counts itself, and the
    first call reads the counter again to return. *)
Example overlapping_log_id_differs :
  let run := Threads.run
               [0; 0; 0; 0; 0; 0; 1; 1; 1; 0; 0]%nat
               [Threads.Ready (call_offline "Hi, who are you?");
                Threads.Ready (call_offline "Tell me a joke")]
               init_world in
  map log_request_id (log_file (snd run)) = [1%Z] /\
  Threads.returned_ids (fst run) = [2%Z].
Proof. split; reflexivity. Qed.

(** ** More on the [/generate] route *)

Section RouteCases.

Variable env : Env.
Variable w : World.

(** A request that is served runs [generate_response] on the prompt. *)
Lemma generate_served (body : outcome json) (prompt : string) :
  served_prompt body = Some prompt ->
  generate env body w
  = (reply_of (result_of env prompt (served_model body) (total_requests w + 1)),
     after_call env prompt (served_model body) w).
Proof.
  unfold served_prompt. intros H.
  destruct body as [data | e]; [ | discriminate H ].
  destruct data; try discriminate H.
  destruct (PyVal.lookup "prompt" items) as [v |] eqn:L; [ | discriminate H ].
  destruct v; try discriminate H.
  destruct (String.eqb (PyStr.strip s) EmptyString) eqn:B; [ discriminate H | ].
  injection H as <-. apply String.eqb_neq in B.
  exact (generate_accepted env items s w L B).
Qed.

(** A request that is not served is answered 400 or 500 and leaves the
    world alone. *)
Lemma generate_refused (body : outcome json) :
  served_prompt body = None ->
  exists reply,
    generate env body w = (Return reply, w) /\
    (reply_status reply = 400%Z \/ reply_status reply = 500%Z).
Proof.
  unfold served_prompt. intros H.
  destruct body as [data | e];
    [ | eexists; split; [ reflexivity | right; reflexivity ] ].
  unfold generate, try_except, bind, py_in, py_getitem, py_get, ret, raise.
  destruct data as [| b | q | s | l | items]; cbn [PyVal.truthy].
  - eexists; split; [ reflexivity | left; reflexivity ].
  - destruct b; eexists; (split; [ reflexivity | ]); auto.
  - destruct (negb (Qeq_bool q 0)); eexists; (split; [ reflexivity | ]); auto.
  - destruct (negb (String.eqb s EmptyString));
      [ destruct (PyStr.contains "prompt" s) | ];
      eexists; (split; [ reflexivity | ]); auto.
  - destruct l as [| x l];
      [ | destruct (existsb (PyVal.is_str "prompt") (x :: l)) ];
      eexists; (split; [ reflexivity | ]); auto.
  - destruct items as [| kv items];
      [ eexists; split; [ reflexivity | left; reflexivity ] | ].
    destruct (PyVal.lookup "prompt" (kv :: items)) as [v |] eqn:L;
      [ | eexists; split; [ reflexivity | left; reflexivity ] ].
    cbn [negb].
    destruct v as [| b | q | s | l | o];
      try (eexists; split; [ reflexivity | right; reflexivity ]).
    destruct (String.eqb (PyStr.strip s) EmptyString); [ | discriminate H ].
    eexists; split; [ reflexivity | left; reflexivity ].
Qed.

End RouteCases.

(** The route always returns; it answers 200, 400 or 500; with 200 the
    counter has moved by one, and otherwise the world (counter, log, output,
    history) is as before. *)
Theorem generate_route_total (env : Env) (body : outcome json) (w : World) :
  exists reply w',
    generate env body w = (Return reply, w') /\
    ((reply_status reply = 200%Z /\
      total_requests w' = (total_requests w + 1)%Z) \/
     ((reply_status reply = 400%Z \/ reply_status reply = 500%Z) /\ w' = w)).
Proof.
  destruct (served_prompt body) as [prompt |] eqn:S.
  - rewrite (generate_served env w body prompt S).
    eexists; eexists. split; [ reflexivity | ]. left. split; reflexivity.
  - destruct (generate_refused env w body S) as [reply [E St]].
    exists reply, w. split; [ exact E | ]. right. split; [ exact St | reflexivity ].
Qed.

(** The route answers 200 exactly when the body is an object whose "prompt"
    is a text that is not blank once trimmed. *)
Theorem generate_route_accepts_exactly
    (env : Env) (body : outcome json) (w : World) :
  (exists reply w',
      generate env body w = (Return reply, w') /\ reply_status reply = 200%Z)
  <->
  (exists items prompt,
      body = Return (JObj items) /\
      PyVal.lookup "prompt" items = Some (JStr prompt) /\
      PyStr.strip prompt <> EmptyString).
Proof.
  split.
  - intros [reply [w' [E St]]].
    destruct (served_prompt body) as [prompt |] eqn:S.
    + unfold served_prompt in S.
      destruct body as [data | e]; [ | discriminate S ].
      destruct data; try discriminate S.
      destruct (PyVal.lookup "prompt" items) as [v |] eqn:L; [ | discriminate S ].
      destruct v; try discriminate S.
      destruct (String.eqb (PyStr.strip s) EmptyString) eqn:B; [ discriminate S | ].
      exists items, s. apply String.eqb_neq in B. auto.
    + destruct (generate_refused env w body S) as [reply' [E' St']].
      rewrite E in E'. injection E' as -> _. lia.
  - intros [items [prompt [-> [L B]]]].
    rewrite (generate_accepted env items prompt w L B).
    eexists; eexists. split; reflexivity.
Qed.

(** A "prompt" that is not a text (a number, null, a list, ...) is answered
    500, not 400, and nothing is counted, posted or logged. *)
Theorem generate_route_prompt_not_text
    (env : Env) (items : list (string * json)) (v : json) (w : World) :
  PyVal.lookup "prompt" items = Some v ->
  (forall s, v <> JStr s) ->
  exists text,
    generate env (Return (JObj items)) w
    = (Return {| reply_body :=
                   JObj [("error", JStr ("Something went wrong: " ++ text))];
                 reply_status := 500 |}, w).
Proof.
  intros L N.
  unfold generate, try_except, bind, py_in, py_getitem, py_get, ret, raise.
  assert (T : PyVal.truthy (JObj items) = true).
  { destruct items; [ discriminate L | reflexivity ]. }
  rewrite T, L. cbn [negb].
  destruct v as [| b | q | s | l | o];
    try (eexists; reflexivity).
  exfalso. apply (N s). reflexivity.
Qed.

Lemma generate_route_prompt_not_text_witness :
  PyVal.lookup "prompt" [("prompt", JNum 42)] = Some (JNum 42) /\
  (forall s, JNum 42 <> JStr s) /\
  exists text,
    generate env_offline (Return (JObj [("prompt", JNum 42)])) init_world
    = (Return {| reply_body :=
                   JObj [("error", JStr ("Something went wrong: " ++ text))];
                 reply_status := 500 |}, init_world).
Proof.
  assert (N : forall s, JNum 42 <> JStr s) by (intros s; discriminate).
  split; [ reflexivity | ]. split; [ exact N | ].
  exact (generate_route_prompt_not_text env_offline [("prompt", JNum 42)]
           (JNum 42) init_world eq_refl N).
Defined.

(** A body that is empty in Python's sense (null, false, 0, "", [], {}) or
    an object without the key "prompt" is answered 400 with the request to
    include a prompt, and the world is as before. *)
Theorem generate_route_missing_prompt (env : Env) (data : json) (w : World) :
  PyVal.truthy data = false \/
  (exists items, data = JObj items /\ PyVal.lookup "prompt" items = None) ->
  generate env (Return data) w
  = (Return {| reply_body :=
                 JObj [("error", JStr "Please include a 'prompt' in your request")];
               reply_status := 400 |}, w).
Proof.
  unfold generate, try_except, bind, py_in, ret.
  intros [F | [items [-> L]]].
  - rewrite F. reflexivity.
  - rewrite L. destruct (PyVal.truthy (JObj items)); reflexivity.
Qed.

Lemma generate_route_missing_prompt_witness :
  (PyVal.truthy (JObj [("model", JStr "llama2")]) = false \/
   (exists items, JObj [("model", JStr "llama2")] = JObj items /\
                  PyVal.lookup "prompt" items = None)) /\
  generate env_offline (Return (JObj [("model", JStr "llama2")])) init_world
  = (Return {| reply_body :=
                 JObj [("error", JStr "Please include a 'prompt' in your request")];
               reply_status := 400 |}, init_world).
Proof.
  assert (H : PyVal.truthy (JObj [("model", JStr "llama2")]) = false \/
              (exists items, JObj [("model", JStr "llama2")] = JObj items /\
                             PyVal.lookup "prompt" items = None)).
  { right. exists [("model", JStr "llama2")]. split; reflexivity. }
  split; [ exact H | ].
  exact (generate_route_missing_prompt env_offline
           (JObj [("model", JStr "llama2")]) init_world H).
Defined.

(** ** More on one call *)

Section Replies.

Variable env : Env.
Variable user_input : string.
Variable model : json.

Let attempt : outcome Response :=
  requests_post env (request_data user_input model).

Lemma backend_reply_text (r : Response) (items : list (string * json))
    (v : json) :
  attempt = Return r ->
  status_code r = 200%Z ->
  response_json r = Return (JObj items) ->
  PyVal.lookup "response" items = Some v ->
  backend_reply env user_input model = (v, None).
Proof.
  unfold backend_reply, _query_ollama, try_except, bind, post, json_of.
  cbn [fst]. fold attempt. intros -> -> -> H. cbn. rewrite H. reflexivity.
Qed.

Lemma backend_reply_unreadable (r : Response) (e : exn) :
  attempt = Return r ->
  status_code r = 200%Z ->
  response_json r = Raise e ->
  exn_kind e = ExOther ->
  backend_reply env user_input model
  = (JNull, Some ("Something went wrong: " ++ exn_str e)).
Proof.
  unfold backend_reply, _query_ollama, try_except, bind, post, json_of.
  cbn [fst]. fold attempt. intros -> -> -> K. cbn. rewrite K. reflexivity.
Qed.

Lemma backend_reply_not_object (r : Response) (j : json) :
  attempt = Return r ->
  status_code r = 200%Z ->
  response_json r = Return j ->
  (forall items, j <> JObj items) ->
  exists text,
    backend_reply env user_input model
    = (JNull, Some ("Something went wrong: " ++ text)).
Proof.
  unfold backend_reply, _query_ollama, try_except, bind, post, json_of.
  cbn [fst]. fold attempt. intros -> -> -> N.
  destruct j; try (eexists; reflexivity).
  exfalso. apply (N items). reflexivity.
Qed.

(** Whatever the backend does, the response settled on is not [None]. *)
Lemma settled_response_not_None :
  settled_response env user_input model <> JNull.
Proof.
  unfold settled_response, settled.
  destruct (backend_reply env user_input model) as [response error].
  destruct response; cbn; discriminate.
Qed.

(** An error is kept only beside the fallback model. *)
Lemma settled_error_fallback :
  settled_error env user_input model <> None ->
  settled_model env user_input model = JStr "fallback-response".
Proof.
  unfold settled_error, settled_model, settled.
  destruct (backend_reply env user_input model) as [response error].
  destruct (PyVal.is_None response); cbn; [ reflexivity | ].
  intros H. contradiction H. reflexivity.
Qed.

Lemma entry_of_sound (id : Z) : entry_sound (entry_of env user_input model id).
Proof.
  split; cbn.
  - apply settled_error_fallback.
  - apply settled_response_not_None.
Qed.

End Replies.

(** A reply with status 200 whose "response" is null is not a success: the
    caller gets the fallback reply under the model "fallback-response", and
    the log entry of this degraded call has no error. *)
Theorem generate_null_text_falls_back
    (env : Env) (user_input : string) (model : json) (w : World)
    (r : Response) (items : list (string * json)) :
  requests_post env (request_data user_input model) = Return r ->
  status_code r = 200%Z ->
  response_json r = Return (JObj items) ->
  PyVal.lookup "response" items = Some JNull ->
  generate_response env user_input model w
  = (Return
       {| res_response :=
            JStr (_create_fallback_response (datetime_now env) user_input);
          res_model := JStr "fallback-response";
          res_time_taken_seconds := round3 (time_end env - time_start env);
          res_offline := true;
          res_request_id := total_requests w + 1 |},
     after_call env user_input model w) /\
  log_error (entry_of env user_input model (total_requests w + 1)) = None.
Proof.
  intros A S J L. rewrite generate_response_run.
  unfold result_of, entry_of, settled_response, settled_model, settled_error,
    settled.
  rewrite (backend_reply_text env user_input model r items JNull A S J L).
  split; reflexivity.
Qed.

Lemma generate_null_text_falls_back_witness :
  fst (generate_response (env_online JNull) "Tell me a joke" (JStr "mistral")
         init_world)
  = Return
      {| res_response :=
           JStr "I'm your offline AI (llama2). You said: 'Tell me a joke...' - I'm handling this locally for privacy.";
         res_model := JStr "fallback-response";
         res_time_taken_seconds := round3 (102 - 100);
         res_offline := true;
         res_request_id := 1 |}.
Proof.
  destruct (generate_null_text_falls_back (env_online JNull) "Tell me a joke"
              (JStr "mistral") init_world
              {| status_code := 200;
                 response_json := Return (JObj [("response", JNull)]) |}
              [("response", JNull)] eq_refl eq_refl eq_refl eq_refl) as [E _].
  rewrite E. reflexivity.
Defined.

(** A reply with status 200 whose "response" is not null is handed on as it
    is, under the model that was asked for, and the log entry has no error. *)
Theorem generate_success
    (env : Env) (user_input : string) (model : json) (w : World)
    (r : Response) (items : list (string * json)) (text : json) :
  requests_post env (request_data user_input model) = Return r ->
  status_code r = 200%Z ->
  response_json r = Return (JObj items) ->
  PyVal.lookup "response" items = Some text ->
  text <> JNull ->
  generate_response env user_input model w
  = (Return
       {| res_response := text;
          res_model := model;
          res_time_taken_seconds := round3 (time_end env - time_start env);
          res_offline := true;
          res_request_id := total_requests w + 1 |},
     after_call env user_input model w) /\
  log_error (entry_of env user_input model (total_requests w + 1)) = None /\
  log_ai_response (entry_of env user_input model (total_requests w + 1)) = text.
Proof.
  intros A S J L N. rewrite generate_response_run.
  unfold result_of, entry_of, settled_response, settled_model, settled_error,
    settled.
  rewrite (backend_reply_text env user_input model r items text A S J L).
  destruct text; [ contradiction N; reflexivity | .. ]; repeat split; reflexivity.
Qed.

Lemma generate_success_witness :
  JStr "Why did the chicken cross the road?" <> JNull /\
  fst (generate_response (env_online (JStr "Why did the chicken cross the road?"))
         "Tell me a joke" (JStr "mistral") init_world)
  = Return
      {| res_response := JStr "Why did the chicken cross the road?";
         res_model := JStr "mistral";
         res_time_taken_seconds := round3 (102 - 100);
         res_offline := true;
         res_request_id := 1 |}.
Proof.
  assert (N : JStr "Why did the chicken cross the road?" <> JNull)
    by discriminate.
  split; [ exact N | ].
  destruct (generate_success (env_online (JStr "Why did the chicken cross the road?"))
              "Tell me a joke" (JStr "mistral") init_world
              {| status_code := 200;
                 response_json :=
                   Return (JObj [("response",
                                  JStr "Why did the chicken cross the road?")]) |}
              [("response", JStr "Why did the chicken cross the road?")]
              (JStr "Why did the chicken cross the road?")
              eq_refl eq_refl eq_refl eq_refl N) as [E _].
  rewrite E. reflexivity.
Defined.

(** A reply with status 200 whose body cannot be read as a JSON object (it
    is not JSON, or it is JSON of another kind) is a failure of the backend:
    the fallback reply is returned and the log entry keeps an error that
    starts with "Something went wrong: ". *)
Theorem generate_unreadable_reply_falls_back
    (env : Env) (user_input : string) (model : json) (w : World) (r : Response) :
  requests_post env (request_data user_input model) = Return r ->
  status_code r = 200%Z ->
  (exists e, response_json r = Raise e /\ exn_kind e = ExOther) \/
  (exists j, response_json r = Return j /\ forall items, j <> JObj items) ->
  exists text,
    generate_response env user_input model w
    = (Return
         {| res_response :=
              JStr (_create_fallback_response (datetime_now env) user_input);
            res_model := JStr "fallback-response";
            res_time_taken_seconds := round3 (time_end env - time_start env);
            res_offline := true;
            res_request_id := total_requests w + 1 |},
       after_call env user_input model w) /\
    log_error (entry_of env user_input model (total_requests w + 1))
    = Some ("Something went wrong: " ++ text).
Proof.
  intros A S [[e [J K]] | [j [J N]]].
  - exists (exn_str e). rewrite generate_response_run.
    unfold result_of, entry_of, settled_response, settled_model, settled_error,
      settled.
    rewrite (backend_reply_unreadable env user_input model r e A S J K).
    split; reflexivity.
  - destruct (backend_reply_not_object env user_input model r j A S J N)
      as [text E].
    exists text. rewrite generate_response_run.
    unfold result_of, entry_of, settled_response, settled_model, settled_error,
      settled.
    rewrite E. split; reflexivity.
Qed.

Lemma generate_unreadable_reply_falls_back_witness :
  exists text,
    log_error (entry_of env_garbled "Tell me a joke" (JStr "llama2") 1)
    = Some ("Something went wrong: " ++ text) /\
    res_model (result_of env_garbled "Tell me a joke" (JStr "llama2") 1)
    = JStr "fallback-response".
Proof.
  destruct (generate_unreadable_reply_falls_back env_garbled "Tell me a joke"
              (JStr "llama2") init_world
              {| status_code := 200;
                 response_json :=
                   Raise {| exn_kind := ExOther;
                            exn_str := "Expecting value: line 1 column 1 (char 0)" |} |}
              eq_refl eq_refl
              (or_introl (ex_intro _ _ (conj eq_refl eq_refl))))
    as [text [_ L]].
  exists text. split; [ exact L | reflexivity ].
Defined.

(** Every call returns a response that is not [None], whatever the backend
    and the file system do. *)
Theorem generate_response_never_None
    (env : Env) (user_input : string) (model : json) (w : World) :
  exists r w',
    generate_response env user_input model w = (Return r, w') /\
    res_response r <> JNull /\
    res_offline r = true.
Proof.
  rewrite generate_response_run. eexists; eexists.
  split; [ reflexivity | ]. split; [ | reflexivity ].
  apply settled_response_not_None.
Qed.



(** The log keeps its invariant along any run of calls: a record with an
    error has the model "fallback-response", and no record has a null
    response. *)
Theorem log_stays_sound (calls : list Call) (w : World) :
  Forall entry_sound (log_file w) ->
  Forall entry_sound (log_file (snd (run_calls calls w))).
Proof.
  intros H. rewrite run_calls_log. apply Forall_app. split; [ exact H | ].
  generalize (total_requests w + 1)%Z.
  induction calls as [| c rest IH]; intros first; cbn [entries_from].
  - constructor.
  - apply Forall_app. split; [ | apply IH ].
    unfold written. destruct (file_write (call_env c)); constructor.
    + apply entry_of_sound.
    + constructor.
Qed.

Lemma log_stays_sound_witness :
  Forall entry_sound (log_file init_world) /\
  Forall entry_sound
    (log_file (snd (run_calls [call_offline "Hi, who are you?";
                               call_offline "Tell me a joke"] init_world))).
Proof.
  split; [ constructor | ].
  apply (log_stays_sound [call_offline "Hi, who are you?";
                          call_offline "Tell me a joke"] init_world).
  constructor.
Defined.

(** ** More on the fallback responder *)

Section StringSizes.

Local Open Scope nat_scope.

Lemma length_append (a b : string) :
  String.length (a ++ b) = String.length a + String.length b.
Proof. induction a as [| c a IH]; cbn; [ | rewrite IH ]; reflexivity. Qed.

Lemma length_take (n : nat) (s : string) :
  String.length (PyStr.take n s) = Nat.min n (String.length s).
Proof.
  revert s. induction n as [| k IH]; intros s; [ reflexivity | ].
  destruct s as [| c r]; cbn; [ | rewrite IH ]; reflexivity.
Qed.

Lemma take_prefix (n : nat) (s : string) :
  exists rest, s = (PyStr.take n s ++ rest)%string.
Proof.
  revert s. induction n as [| k IH]; intros s.
  - exists s. reflexivity.
  - destruct s as [| c r]; [ exists EmptyString; reflexivity | ].
    destruct (IH r) as [rest E]. exists rest. cbn. congruence.
Qed.

End StringSizes.

(** The fallback reply has at most 136 characters however long the prompt
    is: the generic reply echoes the first 50 characters of the prompt (the
    whole prompt when it is shorter) between two fixed texts. *)
Theorem fallback_reply_bounded (now : datetime) (prompt : string) :
  (String.length (_create_fallback_response now prompt) <= 136)%nat /\
  (~ greeting_trigger prompt -> ~ identity_trigger prompt ->
   ~ capability_trigger prompt -> ~ occurs_ci "time" prompt ->
   exists echo rest,
     _create_fallback_response now prompt
     = "I'm your offline AI (llama2). You said: '" ++ echo
       ++ "...' - I'm handling this locally for privacy." /\
     prompt = echo ++ rest /\
     String.length echo = Nat.min 50 (String.length prompt)).
Proof.
  split.
  - unfold _create_fallback_response.
    destruct (PyStr.any_in ["hello"; "hi"; "hey"] _); [ cbn; lia | ].
    destruct (PyStr.any_in ["who"; "what are you"] _); [ cbn; lia | ].
    destruct (PyStr.any_in ["help"; "what can you do"] _); [ cbn; lia | ].
    destruct (PyStr.contains "time" _).
    { unfold DateTime.strftime, DateTime.year_text.
      destruct (1000 <=? year now)%Z; [ cbn; lia | ].
      destruct (100 <=? year now)%Z; [ cbn; lia | ].
      destruct (10 <=? year now)%Z; cbn; lia. }
    rewrite !length_append, length_take. cbn [String.length DEFAULT_AI_MODEL].
    lia.
  - intros G I C T. destruct (take_prefix 50 prompt) as [rest E].
    exists (PyStr.take 50 prompt), rest.
    split; [ apply (fallback_generic now prompt G I C T) | ].
    split; [ exact E | apply length_take ].
Qed.

(** ** Successive requests *)

Section Serving.

Local Open Scope Z_scope.

Lemma serve_served (q : Request) (rest : list Request) (w : World)
    (prompt : string) :
  served_prompt (request_json q) = Some prompt ->
  serve (q :: rest) w
  = (reply_of (result_of (request_env q) prompt (served_model (request_json q))
                 (total_requests w + 1))
     :: fst (serve rest (after_call (request_env q) prompt
                           (served_model (request_json q)) w)),
     snd (serve rest (after_call (request_env q) prompt
                        (served_model (request_json q)) w))).
Proof.
  intros S. cbn [serve]. rewrite (generate_served _ w _ prompt S).
  destruct (serve rest _). reflexivity.
Qed.

Lemma serve_refused (q : Request) (rest : list Request) (w : World) :
  served_prompt (request_json q) = None ->
  exists o,
    accepted o = false /\
    serve (q :: rest) w = (o :: fst (serve rest w), snd (serve rest w)).
Proof.
  intros S. destruct (generate_refused (request_env q) w _ S) as [reply [E St]].
  exists (Return reply). split.
  - cbn. destruct St as [-> | ->]; reflexivity.
  - cbn [serve]. rewrite E. destruct (serve rest w). reflexivity.
Qed.

Lemma accepted_reply_of (r : GenerationResult) : accepted (reply_of r) = true.
Proof. reflexivity. Qed.

(** The world after the requests is the world after the calls they lead
    to. *)
Lemma serve_world (requests : list Request) (w : World) :
  snd (serve requests w) = snd (run_calls (calls_of requests) w).
Proof.
  revert w. induction requests as [| q rest IH]; intros w; [ reflexivity | ].
  cbn [calls_of]. destruct (served_prompt (request_json q)) as [prompt |] eqn:S.
  - rewrite (serve_served q rest w prompt S), run_calls_cons. cbn [snd].
    apply IH.
  - destruct (serve_refused q rest w S) as [o [_ E]]. rewrite E. cbn [snd].
    apply IH.
Qed.

Lemma serve_replies (requests : list Request) (w : World) :
  filter accepted (fst (serve requests w))
  = map reply_of (results_from (total_requests w + 1) (calls_of requests)).
Proof.
  revert w. induction requests as [| q rest IH]; intros w; [ reflexivity | ].
  cbn [calls_of]. destruct (served_prompt (request_json q)) as [prompt |] eqn:S.
  - rewrite (serve_served q rest w prompt S).
    cbn [fst filter results_from map call_env call_prompt call_model].
    rewrite accepted_reply_of, IH. reflexivity.
  - destruct (serve_refused q rest w S) as [o [A E]]. rewrite E.
    cbn [fst filter]. rewrite A. apply IH.
Qed.

Lemma results_from_length (first : Z) (calls : list Call) :
  List.length (results_from first calls) = List.length calls.
Proof.
  revert first. induction calls as [| c rest IH]; intros first; cbn;
    [ | rewrite IH ]; reflexivity.
Qed.

(** The counter moves by the number of accepted requests. *)
Lemma serve_counter (requests : list Request) (w : World) :
  total_requests (snd (serve requests w))
  = total_requests w
    + Z.of_nat (List.length (filter accepted (fst (serve requests w)))).
Proof.
  rewrite serve_world, run_calls_counter, serve_replies, length_map,
    results_from_length.
  reflexivity.
Qed.

End Serving.

(** Requests that are refused leave no trace: after any list of requests
    the world is the one the accepted requests alone lead to, the accepted
    replies carry the results of these calls in order, with consecutive ids,
    and the counter has moved by the number of accepted requests. *)
Theorem refused_requests_leave_no_trace (requests : list Request) (w : World) :
  snd (serve requests w) = snd (run_calls (calls_of requests) w) /\
  (exists rs,
      filter accepted (fst (serve requests w)) = map reply_of rs /\
      fst (run_calls (calls_of requests) w) = map Return rs /\
      map res_request_id rs
      = count_from (total_requests w + 1) (List.length rs)) /\
  total_requests (snd (serve requests w))
  = (total_requests w
     + Z.of_nat (List.length (filter accepted (fst (serve requests w)))))%Z.
Proof.
  split; [ apply serve_world | ].
  split; [ | apply serve_counter ].
  exists (results_from (total_requests w + 1) (calls_of requests)).
  split; [ apply serve_replies | ].
  split; [ apply run_calls_results | ].
  rewrite results_from_ids, results_from_length. reflexivity.
Qed.

(** A blank prompt between two good ones does not use up an id. *)
Example ids_skip_refused_requests :
  map (fun o => match o with
                | Return reply => (reply_status reply,
                                   PyVal.lookup "request_id"
                                     (match reply_body reply with
                                      | JObj items => items
                                      | _ => []
                                      end))
                | Raise _ => (0%Z, None)
                end)
    (fst (serve
            [ {| request_env := env_offline;
                 request_json := Return (JObj [("prompt", JStr "Hi")]) |};
              {| request_env := env_offline;
                 request_json := Return (JObj [("prompt", JStr "   ")]) |};
              {| request_env := env_offline;
                 request_json := Return (JObj [("prompt", JStr "Tell me a joke")]) |} ]
            init_world))
  = [ (200%Z, Some (JNum (inject_Z 1)));
      (400%Z, None);
      (200%Z, Some (JNum (inject_Z 2))) ].
Proof. reflexivity. Qed.

(** ** The status report *)

Section Status.

Variable senv : StatusEnv.
Variable start_time : Q.
Variable w : World.

(** What the probe of the backend settles. *)
Let probe : bool :=
  match requests_get senv with
  | Return response => (status_code response =? 200)%Z
  | Raise _ => false
  end.

Lemma get_system_status_run (memory : Memory) :
  virtual_memory senv = Return memory ->
  get_system_status senv start_time w
  = (Return
       {| st_status := "running";
          st_uptime_seconds := round1 (status_time senv - start_time);
          st_requests_handled := total_requests w;
          st_memory_usage_percent := mem_percent memory;
          st_memory_available_gb :=
            round2 (inject_Z (mem_available memory) / inject_Z (1024 ^ 3));
          st_ollama_running := probe;
          st_log_file := LOG_FILE;
          st_timestamp := DateTime.isoformat (status_utcnow senv) |},
     emit (EvTime (status_time senv)) w).
Proof.
  intros M. unfold get_system_status, bind, try_except, time_time,
    get_total_requests, ret, probe.
  rewrite M. destruct (requests_get senv); reflexivity.
Qed.

Lemma get_system_status_raises (e : exn) :
  virtual_memory senv = Raise e ->
  get_system_status senv start_time w
  = (Raise e, emit (EvTime (status_time senv)) w).
Proof.
  intros M. unfold get_system_status, bind, time_time. rewrite M. reflexivity.
Qed.

Lemma probe_true :
  probe = true <->
  exists response,
    requests_get senv = Return response /\ status_code response = 200%Z.
Proof.
  unfold probe. destruct (requests_get senv) as [response | e].
  - rewrite Z.eqb_eq. split.
    + intros H. exists response. auto.
    + intros [r [E H]]. injection E as <-. exact H.
  - split; [ discriminate | intros [r [E _]]; discriminate E ].
Qed.

End Status.

Lemma round1_nonneg (x : Q) : (0 <= x)%Q -> (0 <= round1 x)%Q.
Proof.
  intros H. unfold round1, Qdiv.
  apply Qmult_le_0_compat.
  - change 0%Q with (inject_Z 0). rewrite <- Zle_Qle.
    apply round_half_even_nonneg.
    apply Qmult_le_0_compat; [ exact H | discriminate ].
  - apply Qinv_le_0_compat. discriminate.
Qed.

Lemma round2_nonneg (x : Q) : (0 <= x)%Q -> (0 <= round2 x)%Q.
Proof.
  intros H. unfold round2, Qdiv.
  apply Qmult_le_0_compat.
  - change 0%Q with (inject_Z 0). rewrite <- Zle_Qle.
    apply round_half_even_nonneg.
    apply Qmult_le_0_compat; [ exact H | discriminate ].
  - apply Qinv_le_0_compat. discriminate.
Qed.

(** Whatever the probe of the backend does, [get_system_status] returns
    when [psutil] does: [ollama_running] is true exactly when the probe got
    an answer with status 200, and false for any other answer and for any
    exception. *)
Theorem status_probe_never_fails
    (senv : StatusEnv) (start_time : Q) (w : World) (memory : Memory) :
  virtual_memory senv = Return memory ->
  exists s w',
    get_system_status senv start_time w = (Return s, w') /\
    (st_ollama_running s = true <->
     exists response,
       requests_get senv = Return response /\ status_code response = 200%Z) /\
    st_status s = "running" /\
    st_log_file s = "logs/ai_hub_log.jsonl".
Proof.
  intros M. rewrite (get_system_status_run senv start_time w memory M).
  eexists; eexists. split; [ reflexivity | ]. cbn.
  split; [ apply probe_true | split; reflexivity ].
Qed.

Lemma status_probe_never_fails_witness :
  virtual_memory senv_offline
  = Return {| mem_percent := 41; mem_available := 8589934592 |} /\
  exists s w',
    get_system_status senv_offline 100 init_world = (Return s, w') /\
    st_ollama_running s = false.
Proof.
  split; [ reflexivity | ].
  destruct (status_probe_never_fails senv_offline 100 init_world
              {| mem_percent := 41; mem_available := 8589934592 |} eq_refl)
    as [s [w' [E [P _]]]].
  exists s, w'. split; [ exact E | ].
  destruct (st_ollama_running s); [ | reflexivity ].
  destruct (proj1 P eq_refl) as [r [R _]]. discriminate R.
Defined.

(** The status report reads and does not write: the counter, the log and
    the output are as before.  The uptime is not negative when the clock has
    not gone back since the start, and the free memory in GB is not negative
    when the byte count is not. *)
Theorem status_is_read_only
    (senv : StatusEnv) (start_time : Q) (w : World) (memory : Memory) :
  virtual_memory senv = Return memory ->
  exists s w',
    get_system_status senv start_time w = (Return s, w') /\
    total_requests w' = total_requests w /\
    log_file w' = log_file w /\
    stdout w' = stdout w /\
    st_requests_handled s = total_requests w /\
    ((start_time <= status_time senv)%Q -> (0 <= st_uptime_seconds s)%Q) /\
    ((0 <= mem_available memory)%Z -> (0 <= st_memory_available_gb s)%Q).
Proof.
  intros M. rewrite (get_system_status_run senv start_time w memory M).
  eexists; eexists. split; [ reflexivity | ]. cbn.
  repeat split.
  - intros T. apply round1_nonneg. apply (proj1 (Qle_minus_iff _ _)). exact T.
  - intros A. apply round2_nonneg. unfold Qdiv. apply Qmult_le_0_compat.
    + change 0%Q with (inject_Z 0). rewrite <- Zle_Qle. exact A.
    + apply Qinv_le_0_compat. discriminate.
Qed.

Lemma status_is_read_only_witness :
  virtual_memory senv_offline
  = Return {| mem_percent := 41; mem_available := 8589934592 |} /\
  exists s w',
    get_system_status senv_offline 100 init_world = (Return s, w') /\
    total_requests w' = 0%Z /\
    (0 <= st_uptime_seconds s)%Q.
Proof.
  split; [ reflexivity | ].
  destruct (status_is_read_only senv_offline 100 init_world
              {| mem_percent := 41; mem_available := 8589934592 |} eq_refl)
    as [s [w' [E [T [_ [_ [_ [U _]]]]]]]].
  exists s, w'. split; [ exact E | ]. split; [ exact T | ].
  apply U. cbn. discriminate.
Defined.

(** [requests_handled] is the number of requests to [/generate] that were
    accepted since the start: refused requests are not counted, fallback
    answers are. *)
Theorem status_counts_accepted_requests
    (senv : StatusEnv) (start_time : Q) (requests : list Request)
    (memory : Memory) :
  virtual_memory senv = Return memory ->
  exists s w',
    get_system_status senv start_time (snd (serve requests init_world))
    = (Return s, w') /\
    st_requests_handled s
    = Z.of_nat (List.length (filter accepted (fst (serve requests init_world)))).
Proof.
  intros M.
  rewrite (get_system_status_run senv start_time _ memory M).
  eexists; eexists. split; [ reflexivity | ]. cbn [st_requests_handled].
  rewrite serve_counter. reflexivity.
Qed.

Lemma status_counts_accepted_requests_witness :
  virtual_memory senv_offline
  = Return {| mem_percent := 41; mem_available := 8589934592 |} /\
  exists s w',
    get_system_status senv_offline 100
      (snd (serve
              [ {| request_env := env_offline;
                   request_json := Return (JObj [("prompt", JStr "Hi")]) |};
                {| request_env := env_offline;
                   request_json := Return (JObj [("prompt", JStr "   ")]) |} ]
              init_world))
    = (Return s, w') /\
    st_requests_handled s = 1%Z.
Proof.
  split; [ reflexivity | ].
  destruct (status_counts_accepted_requests senv_offline 100
              [ {| request_env := env_offline;
                   request_json := Return (JObj [("prompt", JStr "Hi")]) |};
                {| request_env := env_offline;
                   request_json := Return (JObj [("prompt", JStr "   ")]) |} ]
              {| mem_percent := 41; mem_available := 8589934592 |} eq_refl)
    as [s [w' [E C]]].
  exists s, w'. split; [ exact E | ]. rewrite C. reflexivity.
Defined.

(** The [/status] route always returns: 200 with the report, or 500 with
    the text of the exception when [psutil] raises; neither the counter nor
    the log changes. *)
Theorem status_route_total (senv : StatusEnv) (start_time : Q) (w : World) :
  exists reply w',
    status senv start_time w = (Return reply, w') /\
    total_requests w' = total_requests w /\
    log_file w' = log_file w /\
    match virtual_memory senv with
    | Return _ =>
        reply_status reply = 200%Z /\
        PyVal.lookup "requests_handled"
          (match reply_body reply with JObj items => items | _ => [] end)
        = Some (JNum (inject_Z (total_requests w)))
    | Raise e =>
        reply
        = {| reply_body :=
               JObj [("error", JStr ("Could not fetch status: " ++ exn_str e))];
             reply_status := 500 |}
    end.
Proof.
  unfold status, try_except, bind at 1.
  destruct (virtual_memory senv) as [memory | e] eqn:M.
  - rewrite (get_system_status_run senv start_time w memory M).
    eexists; eexists. split; [ reflexivity | ]. repeat split; reflexivity.
  - rewrite (get_system_status_raises senv start_time w e M).
    eexists; eexists. split; [ reflexivity | ]. repeat split; reflexivity.
Qed.

(** ** The client *)

Section Trimming.

Lemma lstrip_head (s : string) :
  PyStr.lstrip s = EmptyString \/
  exists c r, PyStr.lstrip s = String c r /\ PyStr.isspace c = false.
Proof.
  induction s as [| c r IH]; cbn; [ left; reflexivity | ].
  destruct (PyStr.isspace c) eqn:E; [ exact IH | ].
  right. exists c, r. auto.
Qed.

Lemma rstrip_head (c : ascii) (r : string) :
  PyStr.isspace c = false -> exists r', PyStr.rstrip (String c r) = String c r'.
Proof.
  intros E. cbn. destruct (PyStr.rstrip r); rewrite ?E; eexists; reflexivity.
Qed.

Lemma rstrip_idem (s : string) :
  PyStr.rstrip (PyStr.rstrip s) = PyStr.rstrip s.
Proof.
  induction s as [| c r IH]; [ reflexivity | ].
  cbn [PyStr.rstrip]. destruct (PyStr.rstrip r) as [| c' r'] eqn:E.
  - destruct (PyStr.isspace c) eqn:S; [ reflexivity | ].
    cbn. rewrite S. reflexivity.
  - cbn [PyStr.rstrip] in *. rewrite IH. reflexivity.
Qed.

(** Trimming twice is trimming once. *)
Lemma strip_idem (s : string) : PyStr.strip (PyStr.strip s) = PyStr.strip s.
Proof.
  unfold PyStr.strip. destruct (lstrip_head s) as [E | [c [r [E S]]]].
  - rewrite E. reflexivity.
  - rewrite E. destruct (rstrip_head c r S) as [r' R].
    rewrite R. cbn [PyStr.lstrip]. rewrite S, <- R. apply rstrip_idem.
Qed.




End Trimming.


Example api_url_default :
  CLI.init "http://localhost:5000///" ++ "/generate"
  = "http://localhost:5000/generate".
Proof. reflexivity. Qed.

(** [_send_request] reports success exactly when the server answered with
    status 200 and a body that is JSON, and then hands that body on; an
    answer with another status and a JSON body is handed on too, as a
    failure; every exception of the transport becomes a failure with an
    "error" text. *)
Theorem send_request_classifies
    (net : CLI.Network) (api_url endpoint method : string) (data : json) :
  let transport :=
    if String.eqb method "POST"
    then CLI.net_post net (api_url ++ endpoint) data 30
    else CLI.net_get net (api_url ++ endpoint) 10 in
  let result := CLI._send_request net api_url endpoint method data in
  (fst result = true <->
   exists response body,
     transport = Return response /\ status_code response = 200%Z /\
     response_json response = Return body /\ snd result = body) /\
  (forall response body,
      transport = Return response -> response_json response = Return body ->
      result = ((status_code response =? 200)%Z, body)) /\
  (forall e,
      transport = Raise e \/
      (exists response,
          transport = Return response /\ response_json response = Raise e) ->
      exists message, result = (false, JObj [("error", JStr message)])).
Proof.
  cbv zeta. unfold CLI._send_request.
  destruct (if String.eqb method "POST"
            then CLI.net_post net (api_url ++ endpoint) data 30
            else CLI.net_get net (api_url ++ endpoint) 10) as [response | e].
  - destruct (response_json response) as [body | e] eqn:J.
    + split; [ | split ].
      * cbn [fst snd]. rewrite Z.eqb_eq. split.
        -- intros S. exists response, body. auto.
        -- intros [r [b [E [S _]]]]. injection E as <-. exact S.
      * intros r b E B. injection E as <-. rewrite J in B.
        injection B as <-. reflexivity.
      * intros e [E | [r [E B]]]; [ discriminate E | ].
        injection E as <-. rewrite J in B. discriminate B.
    + split; [ | split ].
      * split.
        -- destruct (exn_kind e); discriminate.
        -- intros [r [b [E [_ [B _]]]]]. injection E as <-.
           rewrite J in B. discriminate B.
      * intros r b E B. injection E as <-. rewrite J in B. discriminate B.
      * intros e' _. destruct (exn_kind e); eexists; reflexivity.
  - split; [ | split ].
    + split.
      * destruct (exn_kind e); discriminate.
      * intros [r [b [E _]]]. discriminate E.
    + intros r b E. discriminate E.
    + intros e' _. destruct (exn_kind e); eexists; reflexivity.
Qed.

Example send_request_server_down :
  CLI._send_request net_down "http://localhost:5000" "/status" "GET" JNull
  = (false,
     JObj [("error", JStr "Can't reach the LocalAIHub server. Is it running?")]).
Proof. reflexivity. Qed.

(** The client's [ask] against this server: for a prompt that is blank the
    client gets a failure with the server's message "Prompt cannot be
    empty"; for any other prompt it gets the result of the call, as a
    success. *)
Theorem ask_round_trip
    (net : CLI.Network) (api_url : string) (env : Env) (w : World)
    (user_input model : string) :
  CLI.net_post net (api_url ++ "/generate") (CLI.ask_data user_input model) 30
  = CLI.relay (fst (generate env (Return (CLI.ask_data user_input model)) w)) ->
  CLI._send_request net api_url "/generate" "POST"
    (CLI.ask_data user_input model)
  = if String.eqb (PyStr.strip user_input) EmptyString
    then (false, JObj [("error", JStr "Prompt cannot be empty")])
    else (true,
          jsonify (result_of env user_input (JStr model) (total_requests w + 1))).
Proof.
  intros N. unfold CLI._send_request. cbn [String.eqb Ascii.eqb Bool.eqb].
  rewrite N. unfold CLI.ask_data.
  rewrite (generate_with_prompt env
             [("prompt", JStr user_input); ("model", JStr model)]
             user_input w eq_refl).
  destruct (String.eqb (PyStr.strip user_input) EmptyString); reflexivity.
Qed.

Lemma ask_round_trip_witness :
  CLI._send_request net_fresh "http://localhost:5000" "/generate" "POST"
    (CLI.ask_data "   " "llama2")
  = (false, JObj [("error", JStr "Prompt cannot be empty")]).
Proof.
  exact (ask_round_trip net_fresh "http://localhost:5000" env_offline init_world
           "   " "llama2" eq_refl).
Defined.

(** ** The chat *)

Section Chat.

Import CLI.

Lemma chat_loop_askable (typed : list Typed) :
  Forall askable (asked (chat_loop typed)).
Proof.
  induction typed as [| t rest IH]; [ constructor | ].
  destruct t as [s |]; cbn [chat_loop]; [ | constructor ].
  destruct (quits (PyStr.strip s)) eqn:Q; [ constructor | ].
  destruct (String.eqb (PyStr.strip s) EmptyString) eqn:B; [ exact IH | ].
  cbn [asked]. constructor; [ | exact IH ].
  apply String.eqb_neq in B. repeat split; auto using strip_idem.
Qed.

Lemma chat_loop_count (typed : list Typed) :
  (List.length (asked (chat_loop typed)) <= List.length typed)%nat.
Proof.
  induction typed as [| t rest IH]; [ cbn; lia | ].
  destruct t as [s |]; cbn [chat_loop List.length]; [ | cbn; lia ].
  destruct (quits (PyStr.strip s)); [ cbn; lia | ].
  destruct (String.eqb (PyStr.strip s) EmptyString); cbn [asked List.length]; lia.
Qed.

Lemma chat_loop_quit (pre post : list Typed) (s : string) :
  quits (PyStr.strip s) = true ->
  chat_loop (pre ++ Line s :: post) = chat_loop (pre ++ [Line s]) /\
  asked (chat_loop (pre ++ Line s :: post)) = asked (chat_loop pre).
Proof.
  intros Q. induction pre as [| t pre [IH1 IH2]].
  - cbn [app chat_loop]. rewrite Q. split; reflexivity.
  - destruct t as [x |]; cbn [app chat_loop]; [ | split; reflexivity ].
    destruct (quits (PyStr.strip x)); [ split; reflexivity | ].
    destruct (String.eqb (PyStr.strip x) EmptyString); [ split; assumption | ].
    cbn [asked]. rewrite IH2, IH1. split; reflexivity.
Qed.

Lemma chat_loop_interrupt (pre post : list Typed) :
  chat_loop (pre ++ CtrlC :: post) = chat_loop pre.
Proof.
  induction pre as [| t pre IH]; [ reflexivity | ].
  destruct t as [x |]; cbn [app chat_loop]; [ | reflexivity ].
  destruct (quits (PyStr.strip x)); [ reflexivity | ].
  destruct (String.eqb (PyStr.strip x) EmptyString); rewrite IH; reflexivity.
Qed.

End Chat.

Example chat_session :
  CLI.chat_mode [CLI.Line "   "; CLI.Line " Tell me a joke  "; CLI.Line " QUIT ";
                 CLI.Line "Hello"]
  = [CLI.Say "🚀 Welcome to LocalAIHub Chat Mode!";
     CLI.Say ("Type 'quit', 'exit', or press Ctrl+C to stop" ++ CLI.newline);
     CLI.Say EmptyString;
     CLI.Ask "Tell me a joke";
     CLI.Say "--------------------------------------------------";
     CLI.Say "👋 See you later!"].
Proof. reflexivity. Qed.

(** Every prompt a chat hands to [ask_ai] is trimmed, is not empty and is
    not one of the words that quit; there are at most as many of them as
    lines typed. *)
Theorem chat_asks_trimmed_prompts (typed : list CLI.Typed) :
  Forall CLI.askable (CLI.asked (CLI.chat_mode typed)) /\
  (List.length (CLI.asked (CLI.chat_mode typed)) <= List.length typed)%nat.
Proof.
  unfold CLI.chat_mode. cbn [CLI.asked].
  split; [ apply chat_loop_askable | apply chat_loop_count ].
Qed.

(** A line that trims and lowers to "quit", "exit" or "q" ends the chat:
    what is typed after it is not read, and nothing of it is asked. *)
Theorem chat_stops_at_quit (pre post : list CLI.Typed) (s : string) :
  CLI.quits (PyStr.strip s) = true ->
  CLI.chat_mode (pre ++ CLI.Line s :: post)
  = CLI.chat_mode (pre ++ [CLI.Line s]) /\
  CLI.asked (CLI.chat_mode (pre ++ CLI.Line s :: post))
  = CLI.asked (CLI.chat_mode pre).
Proof.
  intros Q. destruct (chat_loop_quit pre post s Q) as [E A].
  unfold CLI.chat_mode. cbn [CLI.asked]. rewrite E, <- A, E. split; reflexivity.
Qed.

Lemma chat_stops_at_quit_witness :
  CLI.quits (PyStr.strip "  Exit ") = true /\
  CLI.asked (CLI.chat_mode [CLI.Line "Hi"; CLI.Line "  Exit "; CLI.Line "Hello"])
  = CLI.asked (CLI.chat_mode [CLI.Line "Hi"]).
Proof.
  split; [ reflexivity | ].
  exact (proj2 (chat_stops_at_quit [CLI.Line "Hi"] [CLI.Line "Hello"] "  Exit "
                  eq_refl)).
Defined.

(** An interrupt at the prompt ends the chat as the end of the input does:
    the same lines are printed and the same prompts asked, whatever would
    have been typed next. *)
Theorem chat_interrupt_is_end_of_input (pre post : list CLI.Typed) :
  CLI.chat_mode (pre ++ CLI.CtrlC :: post) = CLI.chat_mode pre.
Proof.
  unfold CLI.chat_mode. rewrite chat_loop_interrupt. reflexivity.
Qed.

(** The server never refuses what a chat asks: the body [ask_ai] posts for
    such a prompt is accepted by [/generate], which runs
    [generate_response] on that prompt with the model "llama2". *)
Theorem chat_prompts_are_served
    (typed : list CLI.Typed) (user_input : string) (env : Env) (w : World) :
  In user_input (CLI.asked (CLI.chat_mode typed)) ->
  generate env (Return (CLI.ask_data user_input "llama2")) w
  = (Return
       {| reply_body :=
            jsonify (result_of env user_input (JStr "llama2")
                       (total_requests w + 1));
          reply_status := 200 |},
     after_call env user_input (JStr "llama2") w).
Proof.
  intros H.
  unfold CLI.chat_mode in H. cbn [CLI.asked] in H.
  pose proof (chat_loop_askable typed) as A.
  rewrite Forall_forall in A. destruct (A user_input H) as [N [T _]].
  apply (generate_accepted env
           [("prompt", JStr user_input); ("model", JStr "llama2")]
           user_input w eq_refl).
  rewrite T. exact N.
Qed.

Lemma chat_prompts_are_served_witness :
  In "Tell me a joke"
    (CLI.asked (CLI.chat_mode [CLI.Line " Tell me a joke  "; CLI.Line "q"])) /\
  fst (generate env_offline (Return (CLI.ask_data "Tell me a joke" "llama2"))
         init_world)
  = Return
      {| reply_body :=
           jsonify (result_of env_offline "Tell me a joke" (JStr "llama2") 1);
         reply_status := 200 |}.
Proof.
  assert (H : In "Tell me a joke"
                (CLI.asked (CLI.chat_mode [CLI.Line " Tell me a joke  ";
                                           CLI.Line "q"]))).
  { left. reflexivity. }
  split; [ exact H | ].
  rewrite (chat_prompts_are_served _ "Tell me a joke" env_offline init_world H).
  reflexivity.
Defined.

(** The names the client reads and the server does not write.  When the
    network relays [/status], [check_status] gets the report as a success,
    and the report has no "requests_served" and no "ollama_available": the
    two [get] calls of [check_status] (and the one of [test_status]) yield
    their defaults whatever the counter and the probe are, while the figures
    stand under "requests_handled" and "ollama_running".  Likewise the reply
    of [/generate] has no "duration_seconds" for [ask_ai]. *)
Theorem status_round_trip_reads_defaults
    (net : CLI.Network) (api_url : string) (senv : StatusEnv) (start_time : Q)
    (w : World) (memory : Memory) :
  virtual_memory senv = Return memory ->
  CLI.net_get net (api_url ++ "/status") 10
  = CLI.relay (fst (status senv start_time w)) ->
  exists body,
    CLI._send_request net api_url "/status" "GET" JNull = (true, body) /\
    py_get body "requests_served" (JNum 0) w = (Return (JNum 0), w) /\
    py_get body "ollama_available" JNull w = (Return JNull, w) /\
    py_get body "requests_handled" (JNum 0) w
    = (Return (JNum (inject_Z (total_requests w))), w) /\
    (exists running,
        py_get body "ollama_running" JNull w = (Return (JBool running), w) /\
        (running = true <->
         exists response,
           requests_get senv = Return response /\
           status_code response = 200%Z)) /\
    (forall r default,
        py_get (jsonify r) "duration_seconds" default w = (Return default, w)).
Proof.
  intros M N. unfold CLI._send_request. cbn [String.eqb Ascii.eqb Bool.eqb].
  rewrite N. unfold status, try_except, bind at 1.
  rewrite (get_system_status_run senv start_time w memory M).
  eexists. split; [ reflexivity | ].
  split; [ reflexivity | ]. split; [ reflexivity | ]. split; [ reflexivity | ].
  split; [ | reflexivity ].
  eexists. split; [ reflexivity | ]. apply probe_true.
Qed.

Lemma status_round_trip_reads_defaults_witness :
  virtual_memory senv_offline
  = Return {| mem_percent := 41; mem_available := 8589934592 |} /\
  exists body,
    CLI._send_request
      {| CLI.net_post := fun _ _ _ => Raise connection_refused;
         CLI.net_get := fun _ _ =>
           CLI.relay (fst (status senv_offline 100
                             (snd (run_calls [call_offline "Hi"] init_world)))) |}
      "http://localhost:5000" "/status" "GET" JNull = (true, body) /\
    py_get body "requests_served" (JNum 0)
      (snd (run_calls [call_offline "Hi"] init_world))
    = (Return (JNum 0), snd (run_calls [call_offline "Hi"] init_world)) /\
    py_get body "requests_handled" (JNum 0)
      (snd (run_calls [call_offline "Hi"] init_world))
    = (Return (JNum (inject_Z 1)), snd (run_calls [call_offline "Hi"] init_world)).
Proof.
  split; [ reflexivity | ].
  destruct (status_round_trip_reads_defaults
              {| CLI.net_post := fun _ _ _ => Raise connection_refused;
                 CLI.net_get := fun _ _ =>
                   CLI.relay (fst (status senv_offline 100
                                     (snd (run_calls [call_offline "Hi"]
                                             init_world)))) |}
              "http://localhost:5000" senv_offline 100
              (snd (run_calls [call_offline "Hi"] init_world))
              {| mem_percent := 41; mem_available := 8589934592 |}
              eq_refl eq_refl) as [body [E [S [_ [H _]]]]].
  exists body. split; [ exact E | ]. split; [ exact S | exact H ].
Defined.
